(** * VerificadorDeSenhas: a shallow embedding of [VerificadorDeSenhas.py]

    The program has three functions:
    - [verificar_forca_senha]: scores a password by length and character
      classes and returns a strength level with a list of suggestions;
    - [verificar_vazamento_pwned]: hashes the password with SHA-1 and looks
      the hash suffix up in the body returned by the range endpoint;
    - [main]: the loop that reads passwords and reports on each.

    Python values are modelled as follows.  A [str] is the list of its code
    points (so [len] is [length]); [int] is [Z]; [bytes] is a list of
    integers in [0, 256).  Exceptions and [print] are explicit: a Python
    computation is a function from the lines printed so far to a result
    (returned value or raised exception) and the lines printed after it. *)

From Stdlib Require Import String Ascii ZArith List Sorted Permutation Lia Bool.
Import ListNotations.
Local Open Scope Z_scope.

(** ** Strings *)

Definition codepoint := Z.
Definition str := list codepoint.

(** An ASCII literal of the source, as a [str]. *)
Definition str_of (s : string) : str :=
  map (fun a => Z.of_N (N_of_ascii a)) (list_ascii_of_string s).

Definition str_eqb (a b : str) : bool :=
  if list_eq_dec Z.eq_dec a b then true else false.

(** ** Exceptions and output *)

Inductive excecao :=
| ValueError
| UnicodeEncodeError
| RequestException (detalhe : str).

(** The two lines the breach check can print. *)
Inductive saida :=
| AvisoStatus (codigo : Z)       (* "[AVISO] Erro ao verificar vazamentos (API retornou {codigo})." *)
| AvisoConexao (e : str).         (* "[AVISO] Erro de conexao ao verificar vazamentos: {e}" *)

Inductive resultado (A : Type) :=
| Retorna (a : A)
| Levanta (e : excecao).
Arguments Retorna {A} a.
Arguments Levanta {A} e.

Module Py.

Definition t (A : Type) : Type := list saida -> resultado A * list saida.

Definition ret {A} (a : A) : t A := fun out => (Retorna a, out).

Definition bind {A B} (m : t A) (k : A -> t B) : t B :=
  fun out =>
    match m out with
    | (Retorna a, out') => k a out'
    | (Levanta e, out') => (Levanta e, out')
    end.

Definition raise {A} (e : excecao) : t A := fun out => (Levanta e, out).

Definition print (l : saida) : t unit := fun out => (Retorna tt, out ++ [l]).

(** [try: m except requests.RequestException as e: h e]; every other
    exception goes through. *)
Definition except_RequestException {A} (m : t A) (h : str -> t A) : t A :=
  fun out =>
    match m out with
    | (Levanta (RequestException e), out') => h e out'
    | r => r
    end.

End Py.

Declare Scope py_scope.
Delimit Scope py_scope with py.
Notation "x <- m ;; k" := (Py.bind m (fun x => k))
(at level 61, m at next level, right associativity) : py_scope.
Notation "m ;;; k" := (Py.bind m (fun _ => k))
(at level 61, right associativity) : py_scope.

(** ** The scorer *)

(** The four levels: "Muito Fraca", "Fraca", "M\'edia", "Forte". *)
Inductive nivel := MuitoFraca | Fraca | Media | Forte.

(** The six suggestions, in the order of their [append] in the source. *)
Inductive sugestao :=
| SugPeloMenos8    (* "A senha deve ter pelo menos 8 caracteres." *)
| Sug12OuMais      (* "Considere usar uma senha com 12 ou mais caracteres." *)
| SugMinuscula     (* "Inclua pelo menos uma letra minuscula (a-z)." *)
| SugMaiuscula     (* "Inclua pelo menos uma letra maiuscula (A-Z)." *)
| SugNumero        (* "Inclua pelo menos um numero (0-9)." *)
| SugEspecial.     (* "Inclua pelo menos um caractere especial (ex: !@#$)." *)

(** The local variables of [verificar_forca_senha]. *)
Record locais := { pontuacao : Z; sugestoes : list sugestao }.

(** The character sets of the four patterns. *)
Definition entre (lo hi c : codepoint) : bool := (lo <=? c) && (c <=? hi).

Definition classe_minuscula : codepoint -> bool := entre 97 122.   (* [a-z] *)
Definition classe_maiuscula : codepoint -> bool := entre 65 90.    (* [A-Z] *)
Definition classe_numero : codepoint -> bool := entre 48 57.       (* [0-9] *)

Definition ascii_isalnum (c : codepoint) : bool :=
classe_numero c || classe_maiuscula c || classe_minuscula c.

(** [re.search] of a one-character set: the first character of the string
  in the set, if any. *)
Definition re_search (classe : codepoint -> bool) (s : str) : option codepoint :=
find classe s.

Section Scorer.

(** The part of the Unicode table behind [str.isalnum] above ASCII; it is
    not part of the program.  On ASCII the table is [ascii_isalnum]. *)
Variable unicode_isalnum : codepoint -> bool.

Definition isalnum (c : codepoint) : bool :=
  if c <? 128 then ascii_isalnum c else unicode_isalnum c.

(** [\w]: alphanumeric or underscore; [\W] is its complement. *)
Definition palavra (c : codepoint) : bool := isalnum c || (c =? 95).
(** [[\W_]] *)
Definition classe_especial (c : codepoint) : bool := negb (palavra c) || (c =? 95).

Definition verifica_comprimento (senha : str) (l : locais) : locais :=
  if Z.of_nat (length senha) <? 8 then
    {| pontuacao := pontuacao l - 5; sugestoes := sugestoes l ++ [SugPeloMenos8] |}
  else if Z.of_nat (length senha) <? 12 then
    {| pontuacao := pontuacao l + 1; sugestoes := sugestoes l ++ [Sug12OuMais] |}
  else
    {| pontuacao := pontuacao l + 3; sugestoes := sugestoes l |}.

Definition verifica_classe (classe : codepoint -> bool) (pontos : Z)
    (sug : sugestao) (senha : str) (l : locais) : locais :=
  match re_search classe senha with
  | Some _ => {| pontuacao := pontuacao l + pontos; sugestoes := sugestoes l |}
  | None => {| pontuacao := pontuacao l; sugestoes := sugestoes l ++ [sug] |}
  end.

(** The locals when the last check is done. *)
Definition analisa (senha : str) : locais :=
  let l := {| pontuacao := 0; sugestoes := [] |} in
  let l := verifica_comprimento senha l in
  let l := verifica_classe classe_minuscula 1 SugMinuscula senha l in
  let l := verifica_classe classe_maiuscula 1 SugMaiuscula senha l in
  let l := verifica_classe classe_numero 1 SugNumero senha l in
  verifica_classe classe_especial 2 SugEspecial senha l.

Definition nivel_de (p : Z) : nivel :=
  if p <? 2 then MuitoFraca
  else if p <? 4 then Fraca
  else if p <? 6 then Media
  else Forte.

Definition verificar_forca_senha (senha : str) : Py.t (nivel * list sugestao) :=
  let l := analisa senha in
  Py.ret (nivel_de (pontuacao l), sugestoes l).

End Scorer.

(** ** The patterns as text

    [re.search] takes its pattern as text and compiles it before it
    searches; a pattern that is not well formed makes it raise [re.error].
    The model covers the patterns that are one character set: between
    brackets, literal characters, ranges of two literals, and the classes
    [\w] and [\W].  Every other pattern is outside it, and is reported as
    such, neither as compiled nor as an error. *)

Module Re.

Inductive item :=
| Literal (c : codepoint)
| Intervalo (lo hi : codepoint)
| Palavra                       (* \w *)
| NaoPalavra.                   (* \W *)

Inductive compilacao :=
| Compilado (itens : list item)
| ErroDePadrao                  (* re.error *)
| ForaDoModelo.

Definition anexa (i : item) (r : compilacao) : compilacao :=
  match r with
  | Compilado l => Compilado (i :: l)
  | ErroDePadrao => ErroDePadrao
  | ForaDoModelo => ForaDoModelo
  end.

Definition comeca_por (c : codepoint) (s : str) : bool :=
  match s with
  | x :: _ => x =? c
  | [] => false
  end.

(** The items of a set, after the opening bracket.  The closing bracket
    must end the pattern; a pattern that ends before it is an error
    (unterminated character set), and so is a range whose ends are out of
    order (bad character range). *)
Fixpoint itens_do_conjunto (p : str) : compilacao :=
  match p with
  | [] => ErroDePadrao
  | c :: r =>
      if c =? 93 then                                   (* ] *)
        match r with
        | [] => Compilado []
        | _ :: _ => ForaDoModelo
        end
      else if c =? 92 then                              (* \ *)
        match r with
        | [] => ErroDePadrao
        | e :: r' =>
            if comeca_por 45 r' then ForaDoModelo
            else if e =? 119 then anexa Palavra (itens_do_conjunto r')
            else if e =? 87 then anexa NaoPalavra (itens_do_conjunto r')
            else ForaDoModelo
        end
      else if (c =? 91) || (c =? 45) || (c =? 94) then ForaDoModelo   (* [ - ^ *)
      else
        match r with
        | d :: h :: r' =>
            if d =? 45 then
              if (h =? 93) || (h =? 92) || (h =? 91) then ForaDoModelo
              else if c <=? h then anexa (Intervalo c h) (itens_do_conjunto r')
              else ErroDePadrao
            else anexa (Literal c) (itens_do_conjunto r)
        | _ => anexa (Literal c) (itens_do_conjunto r)
        end
  end.

(** [re.compile(padrao)] *)
Definition compile (padrao : str) : compilacao :=
  match padrao with
  | c :: r =>
      if c =? 91 then
        if comeca_por 93 r || comeca_por 94 r then ForaDoModelo
        else itens_do_conjunto r
      else ForaDoModelo
  | [] => ForaDoModelo
  end.

(** What [re.search] gives: a match or [None], or [re.error]. *)
Inductive busca :=
| Encontrado (m : option codepoint)
| ReError
| NaoModelado.

End Re.

(** What a function that calls [re.search] gives. *)
Inductive resultado_re (A : Type) :=
| Devolve (a : A)
| LevantaReError
| SemModelo.
Arguments Devolve {A} a.
Arguments LevantaReError {A}.
Arguments SemModelo {A}.

Definition liga_re {A B} (m : resultado_re A) (k : A -> resultado_re B) : resultado_re B :=
  match m with
  | Devolve a => k a
  | LevantaReError => LevantaReError
  | SemModelo => SemModelo
  end.

Section ScorerComPadroes.

Variable unicode_isalnum : codepoint -> bool.

Definition casa_item (i : Re.item) (c : codepoint) : bool :=
  match i with
  | Re.Literal x => c =? x
  | Re.Intervalo lo hi => (lo <=? c) && (c <=? hi)
  | Re.Palavra => palavra unicode_isalnum c
  | Re.NaoPalavra => negb (palavra unicode_isalnum c)
  end.

(** A character is in the set when one of the items takes it. *)
Definition casa (itens : list Re.item) (c : codepoint) : bool :=
  existsb (fun i => casa_item i c) itens.

(** [re.search(padrao, s)] *)
Definition re_search_padrao (padrao : str) (s : str) : Re.busca :=
  match Re.compile padrao with
  | Re.Compilado itens => Re.Encontrado (find (casa itens) s)
  | Re.ErroDePadrao => Re.ReError
  | Re.ForaDoModelo => Re.NaoModelado
  end.

Definition verifica_padrao (padrao : str) (pontos : Z) (sug : sugestao)
    (senha : str) (l : locais) : resultado_re locais :=
  match re_search_padrao padrao senha with
  | Re.Encontrado (Some _) =>
      Devolve {| pontuacao := pontuacao l + pontos; sugestoes := sugestoes l |}
  | Re.Encontrado None =>
      Devolve {| pontuacao := pontuacao l; sugestoes := sugestoes l ++ [sug] |}
  | Re.ReError => LevantaReError
  | Re.NaoModelado => SemModelo
  end.

(** [verificar_forca_senha] with its four patterns as the text the source
    gives to [re.search]. *)
Definition verificar_forca_senha_padroes (senha : str) : resultado_re (nivel * list sugestao) :=
  let l := {| pontuacao := 0; sugestoes := [] |} in
  let l := verifica_comprimento senha l in
  liga_re (verifica_padrao (str_of "[a-z]") 1 SugMinuscula senha l) (fun l =>
  liga_re (verifica_padrao (str_of "[A-Z]") 1 SugMaiuscula senha l) (fun l =>
  liga_re (verifica_padrao (str_of "[0-9]") 1 SugNumero senha l) (fun l =>
  liga_re (verifica_padrao (str_of "[\W_]") 2 SugEspecial senha l) (fun l =>
  Devolve (nivel_de (pontuacao l), sugestoes l))))).

End ScorerComPadroes.

(** ** UTF-8 *)

Definition bytes := list Z.

Definition substituto (c : codepoint) : bool := entre 0xD800 0xDFFF c.

(** The bytes of one code point; [None] where [str.encode] refuses it
    (a lone surrogate; a [str] holds nothing outside [0, 0x10FFFF]). *)
Definition utf8_codepoint (c : codepoint) : option bytes :=
  if c <? 0 then None
  else if c <? 0x80 then Some [c]
  else if c <? 0x800 then
    Some [Z.lor 0xC0 (Z.shiftr c 6); Z.lor 0x80 (Z.land c 0x3F)]
  else if c <? 0x10000 then
    if substituto c then None
    else Some [Z.lor 0xE0 (Z.shiftr c 12);
               Z.lor 0x80 (Z.land (Z.shiftr c 6) 0x3F);
               Z.lor 0x80 (Z.land c 0x3F)]
  else if c <? 0x110000 then
    Some [Z.lor 0xF0 (Z.shiftr c 18);
          Z.lor 0x80 (Z.land (Z.shiftr c 12) 0x3F);
          Z.lor 0x80 (Z.land (Z.shiftr c 6) 0x3F);
          Z.lor 0x80 (Z.land c 0x3F)]
  else None.

Fixpoint utf8 (s : str) : option bytes :=
  match s with
  | [] => Some []
  | c :: r =>
      match utf8_codepoint c, utf8 r with
      | Some b, Some bs => Some (b ++ bs)
      | _, _ => None
      end
  end.

(** [s.encode('utf-8')] *)
Definition encode_utf8 (s : str) : Py.t bytes :=
  match utf8 s with
  | Some b => Py.ret b
  | None => Py.raise UnicodeEncodeError
  end.

(** ** SHA-1 (FIPS 180-4), which [hashlib.sha1] computes *)

Definition mask32 (x : Z) : Z := Z.land x 0xFFFFFFFF.
Definition add32 (x y : Z) : Z := mask32 (x + y).
Definition rotl32 (n x : Z) : Z :=
  mask32 (Z.lor (Z.shiftl x n) (Z.shiftr x (32 - n))).

Definition f_sha1 (t : nat) (b c d : Z) : Z :=
  if (t <? 20)%nat then Z.lor (Z.land b c) (Z.land (mask32 (Z.lnot b)) d)
  else if (t <? 40)%nat then Z.lxor (Z.lxor b c) d
  else if (t <? 60)%nat then Z.lor (Z.lor (Z.land b c) (Z.land b d)) (Z.land c d)
  else Z.lxor (Z.lxor b c) d.

Definition k_sha1 (t : nat) : Z :=
  if (t <? 20)%nat then 0x5A827999
  else if (t <? 40)%nat then 0x6ED9EBA1
  else if (t <? 60)%nat then 0x8F1BBCDC
  else 0xCA62C1D6.

Record estado_sha1 := { h0 : Z; h1 : Z; h2 : Z; h3 : Z; h4 : Z }.

Definition inicial_sha1 : estado_sha1 :=
  {| h0 := 0x67452301; h1 := 0xEFCDAB89; h2 := 0x98BADCFE;
     h3 := 0x10325476; h4 := 0xC3D2E1F0 |}.

(** Big-endian bytes of a 32-bit word and of a 64-bit length. *)
Definition byte_de (x : Z) (i : Z) : Z := Z.land (Z.shiftr x (8 * i)) 0xFF.
Definition be32 (x : Z) : bytes := map (byte_de x) [3; 2; 1; 0].
Definition be64 (x : Z) : bytes := map (byte_de x) [7; 6; 5; 4; 3; 2; 1; 0].

(** Padding: the bit 1, zeros up to 56 modulo 64, the length in bits. *)
Definition preenche (m : bytes) : bytes :=
  let l := Z.of_nat (length m) in
  m ++ [0x80] ++ repeat 0 (Z.to_nat ((55 - l) mod 64)) ++ be64 (8 * l).

Fixpoint blocos (n : nat) (bs : bytes) : list bytes :=
  match n with
  | O => []
  | S n' => firstn 64 bs :: blocos n' (skipn 64 bs)
  end.

Fixpoint palavras (bs : bytes) : list Z :=
  match bs with
  | b0 :: b1 :: b2 :: b3 :: r =>
      Z.lor (Z.lor (Z.lor (Z.shiftl b0 24) (Z.shiftl b1 16)) (Z.shiftl b2 8)) b3
        :: palavras r
  | _ => []
  end.

(** The message schedule: [n] more words after the ones in [w]. *)
Fixpoint expande (n : nat) (w : list Z) : list Z :=
  match n with
  | O => w
  | S n' =>
      let t := length w in
      let x := Z.lxor (Z.lxor (Z.lxor (nth (t - 3) w 0) (nth (t - 8) w 0))
                              (nth (t - 14) w 0)) (nth (t - 16) w 0) in
      expande n' (w ++ [rotl32 1 x])
  end.

Fixpoint rodadas (ws : list Z) (t : nat) (a b c d e : Z) : estado_sha1 :=
  match ws with
  | [] => {| h0 := a; h1 := b; h2 := c; h3 := d; h4 := e |}
  | w :: r =>
      let temp :=
        add32 (add32 (add32 (add32 (rotl32 5 a) (f_sha1 t b c d)) e) (k_sha1 t)) w in
      rodadas r (S t) temp a (rotl32 30 b) c d
  end.

Definition comprime (h : estado_sha1) (bloco : bytes) : estado_sha1 :=
  let w := expande 64 (palavras bloco) in
  let r := rodadas w 0 (h0 h) (h1 h) (h2 h) (h3 h) (h4 h) in
  {| h0 := add32 (h0 h) (h0 r); h1 := add32 (h1 h) (h1 r);
     h2 := add32 (h2 h) (h2 r); h3 := add32 (h3 h) (h3 r);
     h4 := add32 (h4 h) (h4 r) |}.

(** [hashlib.sha1(m)] *)
Definition hashlib_sha1 (m : bytes) : estado_sha1 :=
  let p := preenche m in
  fold_left comprime (blocos (length p / 64) p) inicial_sha1.

(** [.digest()]: twenty bytes. *)
Definition digest (h : estado_sha1) : bytes :=
  be32 (h0 h) ++ be32 (h1 h) ++ be32 (h2 h) ++ be32 (h3 h) ++ be32 (h4 h).

(** One digit of "0123456789abcdef". *)
Definition hex_digito (n : Z) : codepoint := if n <? 10 then 48 + n else 87 + n.
Definition hex_byte (b : Z) : str := [hex_digito (Z.shiftr b 4); hex_digito (Z.land b 0xF)].

(** [.hexdigest()] *)
Definition hexdigest (h : estado_sha1) : str := flat_map hex_byte (digest h).

(** [str.upper], on ASCII: the only strings the program applies it to
    are hexadecimal digests. *)
Definition upper_codepoint (c : codepoint) : codepoint :=
  if classe_minuscula c then c - 32 else c.
Definition upper (s : str) : str := map upper_codepoint s.

(** ** [str.splitlines], [str.split] and [int] *)

(** The line boundaries of [str.splitlines]. *)
Definition quebra_de_linha (c : codepoint) : bool :=
  entre 0x0A 0x0D c || entre 0x1C 0x1E c || (c =? 0x85) || (c =? 0x2028) || (c =? 0x2029).

(** [s.splitlines()]: "\r\n" is one boundary, and a boundary at the very
    end opens no further line. *)
Fixpoint splitlines (s : str) : list str :=
  match s with
  | [] => []
  | c :: r =>
      if c =? 0x0D then
        match r with
        | 0x0A :: r' => [] :: splitlines r'
        | _ => [] :: splitlines r
        end
      else if quebra_de_linha c then [] :: splitlines r
      else
        match splitlines r with
        | linha :: resto => (c :: linha) :: resto
        | [] => [[c]]
        end
  end.

(** [s.split(sep)] for a separator of one character. *)
Fixpoint split (sep : codepoint) (s : str) : list str :=
  match s with
  | [] => [[]]
  | c :: r =>
      if c =? sep then [] :: split sep r
      else
        match split sep r with
        | campo :: resto => (c :: campo) :: resto
        | [] => [[c]]
        end
  end.

(** White space for [int]: the C one on ASCII, the Unicode one above. *)
Definition espaco_int (c : codepoint) : bool :=
  if c <? 127 then entre 9 13 c || (c =? 32)
  else (c =? 0x85) || (c =? 0xA0) || (c =? 0x1680) || entre 0x2000 0x200A c
       || (c =? 0x2028) || (c =? 0x2029) || (c =? 0x202F) || (c =? 0x205F)
       || (c =? 0x3000).

Fixpoint lstrip (s : str) : str :=
  match s with
  | c :: r => if espaco_int c then lstrip r else s
  | [] => []
  end.

Definition strip (s : str) : str := rev (lstrip (rev (lstrip s))).

(** The default of [sys.set_int_max_str_digits]. *)
Definition int_max_str_digits : nat := 4300.

Section Int.

(** The decimal digits of Unicode above ASCII (the table is not part of
    the program); on ASCII the digits are "0" to "9". *)
Variable unicode_decimal : codepoint -> option Z.

Definition digito_int (c : codepoint) : option Z :=
  if c <? 127 then (if classe_numero c then Some (c - 48) else None)
  else if espaco_int c then None
  else unicode_decimal c.

(** Digits with single underscores between them.  [apos_digito] says
    that the character before was a digit; [n] counts the digits. *)
Fixpoint digitos (apos_digito : bool) (acc : Z) (n : nat) (s : str) : option (Z * nat) :=
  match s with
  | [] => if apos_digito then Some (acc, n) else None
  | c :: r =>
      if c =? 95 then
        if apos_digito then digitos false acc n r else None
      else
        match digito_int c with
        | Some d => digitos true (10 * acc + d) (S n) r
        | None => None
        end
  end.

(** [int(s)] in base ten: [ValueError] unless [s] is, between white
    space, an optional sign and digits. *)
Definition int (s : str) : Py.t Z :=
  let t := strip s in
  let '(sinal, corpo) :=
    match t with
    | c :: r => if c =? 43 then (1, r) else if c =? 45 then (-1, r) else (1, t)
    | [] => (1, t)
    end in
  match digitos false 0 0 corpo with
  | Some (v, n) =>
      if (int_max_str_digits <? n)%nat then Py.raise ValueError
      else Py.ret (sinal * v)
  | None => Py.raise ValueError
  end.

End Int.

(** ** The remote lookup *)

(** What the program reads of a [requests.Response]. *)
Record Response := { status_code : Z; text : str }.

(** What one [requests.get] does: a response, or a
    [requests.RequestException] with its message. *)
Inductive transporte :=
| Responde (r : Response)
| Falha (e : str).

(** The network, as the program sees it: the outcome of a GET per URL. *)
Definition rede := str -> transporte.

Definition requests_get (net : rede) (url : str) : Py.t Response :=
  match net url with
  | Responde r => Py.ret r
  | Falha e => Py.raise (RequestException e)
  end.

(** ** The breach check *)

Definition sha1_senha (dados : bytes) : str := upper (hexdigest (hashlib_sha1 dados)).
Definition prefixo_hash (dados : bytes) : str := firstn 5 (sha1_senha dados).
Definition sufixo_hash (dados : bytes) : str := skipn 5 (sha1_senha dados).

Definition url_range : str := str_of "https://api.pwnedpasswords.com/range/".

Section Vazamento.

Variable unicode_decimal : codepoint -> option Z.
Variable net : rede.

Local Open Scope py_scope.

(** The [for] loop over the generator [hashes_vazados]: each line is
    split and unpacked when its turn comes.  [Some v] is [return v] from
    inside the loop, [None] is the loop running to its end. *)
Fixpoint percorre (sufixo : str) (linhas : list str) : Py.t (option (bool * Z)) :=
  match linhas with
  | [] => Py.ret None
  | linha :: resto =>
      match split 58 linha with
      | [hash_vazado; contagem] =>
          if str_eqb hash_vazado sufixo then
            n <- int unicode_decimal contagem ;;
            Py.ret (Some (true, n))
          else percorre sufixo resto
      | _ => Py.raise ValueError
      end
  end.

(** The body of the [try]. *)
Definition consulta (senha : str) : Py.t (option (bool * Z)) :=
  dados <- encode_utf8 senha ;;
  let url := url_range ++ prefixo_hash dados in
  resposta <- requests_get net url ;;
  if negb (status_code resposta =? 200) then
    Py.print (AvisoStatus (status_code resposta)) ;;;
    Py.ret (Some (false, 0))
  else percorre (sufixo_hash dados) (splitlines (text resposta)).

Definition verificar_vazamento_pwned (senha : str) : Py.t (bool * Z) :=
  r <- Py.except_RequestException (consulta senha)
         (fun e => Py.print (AvisoConexao e) ;;; Py.ret (Some (false, 0))) ;;
  match r with
  | Some v => Py.ret v
  | None => Py.ret (false, 0)
  end.

End Vazamento.

(** ** The session: [main] and the program *)

(** What one read of a password does.  The masked read and [input] each
    return the text typed, raise an [Exception] (with its message), or are
    interrupted by Ctrl-C, which raises [KeyboardInterrupt]. *)
Inductive leitura :=
| Digita (s : str)
| Erro (e : str)
| Interrompe.

(** The lines [main] and the program print. *)
Inductive impressao :=
| Titulo                      (* "Verificador de Forca de Senha" *)
| Instrucoes                  (* "Digite uma senha para analise (ou 'sair' para fechar)." *)
| ErroMascara (e : str)       (* "Erro ao tentar mascarar senha ({e}), usando input padrao." *)
| AteLogo                     (* "Ate logo!" *)
| NenhumaSenha                (* "Nenhuma senha digitada. Tente novamente." *)
| ResultadoDaAnalise          (* "Resultado da Analise:" *)
| ForcaDaSenha (nv : nivel)   (* "[ Forca da Senha: {nivel} ]" *)
| SugestoesParaMelhorar       (* "Sugestoes para melhorar:" *)
| Sugestao (s : sugestao)     (* "- {sugestao}" *)
| VerificandoVazamentos       (* "Verificando em vazamentos de dados..." *)
| Aviso (a : saida)           (* a line of [verificar_vazamento_pwned] *)
| AlertaInsegura              (* "!!! ALERTA !!! Esta senha e INSEGURA." *)
| AlertaContagem (contagem : Z) (* "Ela ja apareceu {contagem:,} vezes em vazamentos de dados conhecidos." *)
| AlertaEscolhaOutra          (* "Por favor, escolha outra senha." *)
| InfoNaoEncontrada           (* "INFO: Senha nao encontrada em vazamentos publicos conhecidos." *)
| Separador                   (* thirty dashes *)
| Interrompida.               (* "Verificacao interrompida. Ate logo!" *)

(** The exceptions that can leave [main]. *)
Inductive excecao_main :=
| KeyboardInterrupt
| DoVazamento (e : excecao)   (* raised inside a function of the program *)
| DoInput (e : str).          (* raised by the fallback [input] *)

(** How a run of [main] over a script of reads ends: it returns, an
    exception leaves it, or it is waiting for a read the script does not
    have. *)
Inductive desfecho :=
| Regressa
| Propaga (e : excecao_main)
| Aguarda.

(** How the program ends: with an exit status, with an exception nothing
    handles, or waiting for a read. *)
Inductive fim :=
| Sai (codigo : Z)
| NaoTratada (e : excecao_main)
| AguardaEntrada.

(** Lines printed before what follows. *)
Definition prefixa (linhas : list impressao) (k : list impressao * desfecho)
  : list impressao * desfecho :=
  (linhas ++ fst k, snd k).

(** [str.lower] on an ASCII character. *)
Definition lower_codepoint (c : codepoint) : codepoint :=
  if classe_maiuscula c then c + 32 else c.

Section Main.

Variable unicode_isalnum : codepoint -> bool.
Variable unicode_decimal : codepoint -> option Z.
(** [str.lower] on a string with a character above ASCII (the Unicode
    table is not part of the program). *)
Variable unicode_lower : str -> str.
Variable net : rede.

Definition lower (s : str) : str :=
  if forallb (fun c => c <? 128) s then map lower_codepoint s else unicode_lower s.

(** The main part of the loop body, for one password: the lines printed
    and the exception that cuts it short, if any. *)
Definition avalia (senha_usuario : str) : list impressao * option excecao :=
  match verificar_forca_senha unicode_isalnum senha_usuario [] with
  | (Levanta e, _) => ([], Some e)
  | (Retorna (nivel, sugestoes), _) =>
      let relatorio :=
        [ResultadoDaAnalise; ForcaDaSenha nivel]
        ++ match sugestoes with
           | [] => []
           | _ :: _ => SugestoesParaMelhorar :: map Sugestao sugestoes
           end
        ++ [VerificandoVazamentos] in
      match verificar_vazamento_pwned unicode_decimal net senha_usuario [] with
      | (Levanta e, avisos) => (relatorio ++ map Aviso avisos, Some e)
      | (Retorna (vazou, contagem), avisos) =>
          (relatorio ++ map Aviso avisos
           ++ (if vazou : bool
               then [AlertaInsegura; AlertaContagem contagem; AlertaEscolhaOutra]
               else [InfoNaoEncontrada])
           ++ [Separador], None)
      end
  end.

(** The loop body once [senha_usuario] is read; [continua] is the rest of
    the loop. *)
Definition passo (senha_usuario : str) (continua : list impressao * desfecho)
  : list impressao * desfecho :=
  if str_eqb (lower senha_usuario) (str_of "sair") then ([AteLogo], Regressa)
  else
    match senha_usuario with
    | [] => prefixa [NenhumaSenha] continua
    | _ :: _ =>
        match avalia senha_usuario with
        | (linhas, None) => prefixa linhas continua
        | (linhas, Some e) => (linhas, Propaga (DoVazamento e))
        end
    end.

(** [while True]: the masked read; when it raises an [Exception] the
    message is printed and [input] reads instead.  [KeyboardInterrupt] is
    no [Exception] and leaves the loop. *)
Fixpoint laco (entradas : list leitura) : list impressao * desfecho :=
  match entradas with
  | [] => ([], Aguarda)
  | Interrompe :: _ => ([], Propaga KeyboardInterrupt)
  | Digita s :: r => passo s (laco r)
  | Erro e :: r =>
      prefixa [ErroMascara e]
        match r with
        | [] => ([], Aguarda)
        | Interrompe :: _ => ([], Propaga KeyboardInterrupt)
        | Erro e' :: _ => ([], Propaga (DoInput e'))
        | Digita s :: r' => passo s (laco r')
        end
  end.

Definition main (entradas : list leitura) : list impressao * desfecho :=
  prefixa [Titulo; Instrucoes] (laco entradas).

(** [if __name__ == "__main__"]: [KeyboardInterrupt] out of [main] prints
    the farewell and exits with status 0. *)
Definition programa (entradas : list leitura) : list impressao * fim :=
  match main entradas with
  | (linhas, Regressa) => (linhas, Sai 0)
  | (linhas, Propaga KeyboardInterrupt) => (linhas ++ [Interrompida], Sai 0)
  | (linhas, Propaga e) => (linhas, NaoTratada e)
  | (linhas, Aguarda) => (linhas, AguardaEntrada)
  end.

End Main.

(** ** The standards the breach check names

    UTF-8 as RFC 3629 tabulates it and SHA-1 as FIPS 180-4 specifies it,
    written with the arithmetic of the two documents and independently of
    the functions above; the hexadecimal digest in upper case. *)

Module RFC3629.

(** Section 3: the bits of the code point spread over one to four
    octets. *)
Definition octetos (c : codepoint) : bytes :=
  if c <? 0x80 then [c]
  else if c <? 0x800 then [0xC0 + c / 0x40; 0x80 + c mod 0x40]
  else if c <? 0x10000 then
    [0xE0 + c / 0x1000; 0x80 + (c / 0x40) mod 0x40; 0x80 + c mod 0x40]
  else
    [0xF0 + c / 0x40000; 0x80 + (c / 0x1000) mod 0x40;
     0x80 + (c / 0x40) mod 0x40; 0x80 + c mod 0x40].

Definition encode (s : str) : bytes := flat_map octetos s.

End RFC3629.

Module FIPS180.

(** Section 2.2.2: operations on words of 32 bits. *)
Definition soma (x y : Z) : Z := (x + y) mod 2 ^ 32.
Definition ROTL (n x : Z) : Z := Z.lor ((x * 2 ^ n) mod 2 ^ 32) (x / 2 ^ (32 - n)).
Definition NOT (x : Z) : Z := 2 ^ 32 - 1 - x.

(** Section 4.1.1: the functions of SHA-1. *)
Definition Ch (x y z : Z) : Z := Z.lxor (Z.land x y) (Z.land (NOT x) z).
Definition Parity (x y z : Z) : Z := Z.lxor (Z.lxor x y) z.
Definition Maj (x y z : Z) : Z :=
  Z.lxor (Z.lxor (Z.land x y) (Z.land x z)) (Z.land y z).

Definition f (t : nat) : Z -> Z -> Z -> Z :=
  if (t <? 20)%nat then Ch
  else if (t <? 40)%nat then Parity
  else if (t <? 60)%nat then Maj
  else Parity.

(** Section 4.2.1: the constants. *)
Definition K (t : nat) : Z :=
  if (t <? 20)%nat then 0x5a827999
  else if (t <? 40)%nat then 0x6ed9eba1
  else if (t <? 60)%nat then 0x8f1bbcdc
  else 0xca62c1d6.

(** Section 5.1.1: after the message the bit 1, then the least number of
    zero bits that brings the length to 448 modulo 512, then the length
    of the message in bits on 64 bits.  In octets: 0x80, the least number
    of zero octets that brings the length to 56 modulo 64, eight octets. *)
Definition zeros (l : nat) : nat :=
  match find (fun k => (Z.of_nat (l + 1 + k)) mod 64 =? 56) (seq 0 64) with
  | Some k => k
  | None => 0%nat
  end.

Definition comprimento64 (bits : Z) : bytes :=
  map (fun i => (bits / 2 ^ (8 * i)) mod 256) [7; 6; 5; 4; 3; 2; 1; 0].

Definition preenchida (m : bytes) : bytes :=
  m ++ [0x80] ++ repeat 0 (zeros (length m)) ++ comprimento64 (8 * Z.of_nat (length m)).

(** Section 5.2.1: word [t] of block [i], most significant octet first. *)
Definition M (p : bytes) (i t : nat) : Z :=
  let o := (64 * i + 4 * t)%nat in
  nth o p 0 * 2 ^ 24 + nth (o + 1) p 0 * 2 ^ 16 + nth (o + 2) p 0 * 2 ^ 8 + nth (o + 3) p 0.

(** Section 5.3.1: the initial hash value. *)
Definition H0 : estado_sha1 :=
  {| h0 := 0x67452301; h1 := 0xefcdab89; h2 := 0x98badcfe;
     h3 := 0x10325476; h4 := 0xc3d2e1f0 |}.

(** Section 6.1.2, step 1: the message schedule.  [Wate m t] is
    [W_t; ...; W_0]; from [t = 16] on, [W_t] is the rotation of
    [W_(t-3)], [W_(t-8)], [W_(t-14)] and [W_(t-16)] added bit by bit. *)
Fixpoint Wate (m : nat -> Z) (t : nat) : list Z :=
  match t with
  | O => [m O]
  | S t' =>
      let ant := Wate m t' in
      (if (S t' <? 16)%nat then m (S t')
       else ROTL 1 (Z.lxor (Z.lxor (Z.lxor (nth 2 ant 0) (nth 7 ant 0)) (nth 13 ant 0))
                           (nth 15 ant 0)))
        :: ant
  end.

Definition W (m : nat -> Z) (t : nat) : Z := hd 0 (Wate m t).

(** Step 3: one turn on the working variables a, b, c, d, e (kept in the
    five fields of the record). *)
Definition passo_t (m : nat -> Z) (v : estado_sha1) (t : nat) : estado_sha1 :=
  let T := (ROTL 5 (h0 v) + f t (h1 v) (h2 v) (h3 v) + h4 v + K t + W m t) mod 2 ^ 32 in
  {| h0 := T; h1 := h0 v; h2 := ROTL 30 (h1 v); h3 := h2 v; h4 := h3 v |}.

(** Steps 2 to 4: the hash value after one block. *)
Definition bloco (H : estado_sha1) (m : nat -> Z) : estado_sha1 :=
  let v := fold_left (passo_t m) (seq 0 80) H in
  {| h0 := soma (h0 v) (h0 H); h1 := soma (h1 v) (h1 H); h2 := soma (h2 v) (h2 H);
     h3 := soma (h3 v) (h3 H); h4 := soma (h4 v) (h4 H) |}.

Definition SHA1 (m : bytes) : estado_sha1 :=
  let p := preenchida m in
  fold_left (fun H i => bloco H (M p i)) (seq 0 (length p / 64)) H0.

(** The message digest: the five words, each on four octets. *)
Definition octetos_da_palavra (x : Z) : bytes :=
  [(x / 2 ^ 24) mod 256; (x / 2 ^ 16) mod 256; (x / 2 ^ 8) mod 256; x mod 256].

Definition resumo (H : estado_sha1) : bytes :=
  flat_map octetos_da_palavra [h0 H; h1 H; h2 H; h3 H; h4 H].

End FIPS180.

(** Two hexadecimal digits in upper case for each octet. *)
Definition alfabeto_hex : str := str_of "0123456789ABCDEF".

Definition hex_do_octeto (b : Z) : str :=
  [nth (Z.to_nat (b / 16)) alfabeto_hex 0; nth (Z.to_nat (b mod 16)) alfabeto_hex 0].

Definition hex_maiusculas (bs : bytes) : str := flat_map hex_do_octeto bs.

(** The digest of the specification: SHA-1 of the UTF-8 encoding, in
    hexadecimal and upper case. *)
Definition digest_da_norma (senha : str) : str :=
  hex_maiusculas (FIPS180.resumo (FIPS180.SHA1 (RFC3629.encode senha))).

(** ** The words of the specification *)

(** The character classes of the scorer, as its patterns and its
    suggestions name them: a lowercase letter is one of a-z, an uppercase
    letter one of A-Z, a digit one of 0-9; a character is not alphanumeric
    when [str.isalnum] is false of it. *)
Definition letra_minuscula (c : codepoint) : Prop := 97 <= c <= 122.
Definition letra_maiuscula (c : codepoint) : Prop := 65 <= c <= 90.
Definition algarismo (c : codepoint) : Prop := 48 <= c <= 57.
Definition nao_alfanumerico (unicode_isalnum : codepoint -> bool) (c : codepoint) : Prop :=
  isalnum unicode_isalnum c = false.

(** The level of a total, by the thresholds 2, 4 and 6. *)
Definition nivel_conforme (p : Z) (nv : nivel) : Prop :=
  (p < 2 -> nv = MuitoFraca) /\
  (2 <= p < 4 -> nv = Fraca) /\
  (4 <= p < 6 -> nv = Media) /\
  (6 <= p -> nv = Forte).

(** The points of a class: [pontos] when a character of it is present. *)
Definition pontos_de (P : codepoint -> Prop) (pontos : Z) (senha : str) (p : Z) : Prop :=
  (Exists P senha -> p = pontos) /\ (~ Exists P senha -> p = 0).

(** The place of a suggestion in the fixed order of the checks: length,
    lowercase, uppercase, digit, special character. *)
Definition ordem (s : sugestao) : nat :=
  match s with
  | SugPeloMenos8 | Sug12OuMais => 0
  | SugMinuscula => 1
  | SugMaiuscula => 2
  | SugNumero => 3
  | SugEspecial => 4
  end.

Definition antes (a b : sugestao) : Prop := (ordem a < ordem b)%nat.

(** A password that is Unicode text: code points in range, none of them
    a surrogate. *)
Definition escalar (c : codepoint) : Prop :=
  0 <= c <= 0x10FFFF /\ ~ (0xD800 <= c <= 0xDFFF).
Definition codificavel (senha : str) : Prop := Forall escalar senha.

(** A digit of "0123456789ABCDEF". *)
Definition hex_maiusculo (c : codepoint) : Prop := 48 <= c <= 57 \/ 65 <= c <= 70.

(** The body of a response: lines SUFFIX:COUNT with [sep] between them. *)
Definition linha_de (par : str * str) : str := fst par ++ [58] ++ snd par.

Fixpoint junta (sep : str) (linhas : list str) : str :=
  match linhas with
  | [] => []
  | [l] => l
  | l :: r => l ++ sep ++ junta sep r
  end.

Definition corpo_de (sep : str) (pares : list (str * str)) : str :=
  junta sep (map linha_de pares).

Definition fim_de_linha (sep : str) : Prop := sep = [10] \/ sep = [13; 10].

(** A string with no line boundary in it. *)
Definition sem_quebra (l : str) : Prop := Forall (fun c => quebra_de_linha c = false) l.

(** A field holds neither the colon nor a line boundary. *)
Definition campo (s : str) : Prop :=
  Forall (fun c => c <> 58 /\ quebra_de_linha c = false) s.

(** A count: decimal digits, at least one and no more than [int] takes. *)
Definition contagem_decimal (s : str) : Prop :=
  s <> [] /\ Forall algarismo s /\ (length s <= int_max_str_digits)%nat.

Definition par_bem_formado (par : str * str) : Prop :=
  campo (fst par) /\ contagem_decimal (snd par).

(** The number a string of decimal digits writes. *)
Definition valor_decimal (s : str) : Z :=
  fold_left (fun acc c => 10 * acc + (c - 48)) s 0.

(** What the lookup of a suffix in a list of pairs should give. *)
Definition procura (sufixo : str) (pares : list (str * str)) : bool * Z :=
  match find (fun par => str_eqb (fst par) sufixo) pares with
  | Some par => (true, valor_decimal (snd par))
  | None => (false, 0)
  end.

(** The levels from weakest to strongest. *)
Definition posto (nv : nivel) : Z :=
  match nv with
  | MuitoFraca => 0
  | Fraca => 1
  | Media => 2
  | Forte => 3
  end.

(** The word "sair" in any mix of upper and lower case. *)
Definition variante_de_sair (s : str) : Prop :=
  Forall2 (fun c m => c = m \/ c = m - 32) s (str_of "sair").

(** A network that answers every URL with a failure of transport, a
    status other than 200, or 200 and a body of well-formed lines. *)
Definition resposta_bem_comportada (t : transporte) : Prop :=
  match t with
  | Falha _ => True
  | Responde r =>
      status_code r <> 200 \/
      exists sep pares,
        fim_de_linha sep /\ Forall par_bem_formado pares /\ text r = corpo_de sep pares
  end.

Definition rede_bem_comportada (net : rede) : Prop :=
  forall url, resposta_bem_comportada (net url).

(** A script whose typed texts are all Unicode text. *)
Definition leitura_codificavel (l : leitura) : Prop :=
  match l with
  | Digita s => codificavel s
  | _ => True
  end.

(** A line other than the one of the failed masked read. *)
Definition nao_erro_mascara (l : impressao) : bool :=
  match l with
  | ErroMascara _ => false
  | _ => true
  end.

(** The script of a session where every masked read raises [e] and the
    texts [ss] are typed at the fallback [input]. *)
Definition sem_mascara (e : str) (ss : list str) : list leitura :=
  flat_map (fun s => [Erro e; Digita s]) ss.

(** A word of 32 bits, and a hash value made of five. *)
Definition palavra32 (x : Z) : Prop := 0 <= x < 2 ^ 32.

Definition estado32 (v : estado_sha1) : Prop :=
  palavra32 (h0 v) /\ palavra32 (h1 v) /\ palavra32 (h2 v) /\
  palavra32 (h3 v) /\ palavra32 (h4 v).

(** * Properties of the scorer *)

Lemma entre_spec lo hi c : entre lo hi c = true <-> lo <= c <= hi.
Proof. unfold entre. rewrite andb_true_iff, !Z.leb_le. tauto. Qed.

Lemma re_search_Some classe (P : codepoint -> Prop) senha :
  (forall c, classe c = true <-> P c) ->
  Exists P senha -> exists c, re_search classe senha = Some c.
Proof.
  intros HP HE. unfold re_search.
  destruct (find classe senha) as [c|] eqn:E; [now exists c|].
  apply Exists_exists in HE as (c & Hin & Hc).
  apply HP in Hc. now rewrite (find_none _ _ E c Hin) in Hc.
Qed.

Lemma re_search_None classe (P : codepoint -> Prop) senha :
  (forall c, classe c = true <-> P c) ->
  ~ Exists P senha -> re_search classe senha = None.
Proof.
  intros HP HN. unfold re_search.
  destruct (find classe senha) as [c|] eqn:E; [|reflexivity].
  exfalso. apply HN, Exists_exists. exists c.
  apply find_some in E as [Hin Hc]. split; [assumption | now apply HP].
Qed.

Lemma Exists_dec_classe classe (P : codepoint -> Prop) (senha : str) :
  (forall c, classe c = true <-> P c) ->
  Exists P senha \/ ~ Exists P senha.
Proof.
  intros HP. destruct (re_search classe senha) as [c|] eqn:E.
  - left. apply Exists_exists. exists c. unfold re_search in E.
    apply find_some in E as [Hin Hc]. split; [assumption | now apply HP].
  - right. intros HE. destruct (re_search_Some classe P senha HP HE) as [c Hc].
    congruence.
Qed.

Section PropriedadesDoScorer.

Variable unicode_isalnum : codepoint -> bool.

Lemma classe_especial_spec c :
  classe_especial unicode_isalnum c = true <-> nao_alfanumerico unicode_isalnum c.
Proof.
  unfold classe_especial, palavra, nao_alfanumerico.
  destruct (Z.eqb_spec c 95) as [->|Hc].
  - rewrite orb_true_r. split; [reflexivity | trivial].
  - rewrite !orb_false_r, negb_true_iff. tauto.
Qed.

Lemma pontuacao_verifica_classe classe P pontos sug senha l :
  (forall c, classe c = true <-> P c) ->
  exists p, pontos_de P pontos senha p /\
    pontuacao (verifica_classe classe pontos sug senha l) = pontuacao l + p.
Proof.
  intros HP. unfold verifica_classe.
  destruct (Exists_dec_classe classe P senha HP) as [HE|HN].
  - destruct (re_search_Some classe P senha HP HE) as [c ->].
    exists pontos. split; [split; [reflexivity | contradiction] | reflexivity].
  - rewrite (re_search_None classe P senha HP HN).
    exists 0. split; [split; [contradiction | reflexivity] | simpl; lia].
Qed.

Lemma pontuacao_verifica_comprimento senha l :
  let n := Z.of_nat (length senha) in
  exists p, (n < 8 -> p = -5) /\ (8 <= n < 12 -> p = 1) /\ (12 <= n -> p = 3) /\
    pontuacao (verifica_comprimento senha l) = pontuacao l + p.
Proof.
  intros n. unfold verifica_comprimento. fold n.
  destruct (Z.ltb_spec n 8); [exists (-5); simpl; repeat split; lia|].
  destruct (Z.ltb_spec n 12); [exists 1 | exists 3]; simpl; repeat split; lia.
Qed.

Lemma nivel_de_conforme p : nivel_conforme p (nivel_de p).
Proof.
  unfold nivel_conforme, nivel_de.
  destruct (Z.ltb_spec p 2); [repeat split; (reflexivity || lia)|].
  destruct (Z.ltb_spec p 4); [repeat split; (reflexivity || lia)|].
  destruct (Z.ltb_spec p 6); repeat split; (reflexivity || lia).
Qed.

(** C1.  The total of [verificar_forca_senha] is the sum of five terms:
    -5, +1 or +3 by the length (below 8, from 8 to 11, 12 or more), +1 for
    a lowercase letter present, +1 for an uppercase letter, +1 for a digit
    and +2 for a non-alphanumeric character, each 0 when the class is
    absent; the function returns the level of that total: Muito Fraca
    below 2, Fraca below 4, Media below 6, Forte otherwise. *)
Theorem pontuacao_e_nivel (senha : str) (out : list saida) :
  let n := Z.of_nat (length senha) in
  let p := pontuacao (analisa unicode_isalnum senha) in
  exists pc pm pM pn pe : Z,
    p = pc + pm + pM + pn + pe /\
    ((n < 8 -> pc = -5) /\ (8 <= n < 12 -> pc = 1) /\ (12 <= n -> pc = 3)) /\
    pontos_de letra_minuscula 1 senha pm /\
    pontos_de letra_maiuscula 1 senha pM /\
    pontos_de algarismo 1 senha pn /\
    pontos_de (nao_alfanumerico unicode_isalnum) 2 senha pe /\
    exists nv sug,
      verificar_forca_senha unicode_isalnum senha out = (Retorna (nv, sug), out) /\
      nivel_conforme p nv.
Proof.
  intros n p. subst p. unfold analisa.
  set (l0 := {| pontuacao := 0; sugestoes := [] |}).
  destruct (pontuacao_verifica_comprimento senha l0) as (pc & H1 & H2 & H3 & Ec).
  set (l1 := verifica_comprimento senha l0) in *.
  destruct (pontuacao_verifica_classe classe_minuscula letra_minuscula 1 SugMinuscula
              senha l1 (entre_spec 97 122)) as (pm & Hm & Em).
  set (l2 := verifica_classe classe_minuscula 1 SugMinuscula senha l1) in *.
  destruct (pontuacao_verifica_classe classe_maiuscula letra_maiuscula 1 SugMaiuscula
              senha l2 (entre_spec 65 90)) as (pM & HM & EM).
  set (l3 := verifica_classe classe_maiuscula 1 SugMaiuscula senha l2) in *.
  destruct (pontuacao_verifica_classe classe_numero algarismo 1 SugNumero
              senha l3 (entre_spec 48 57)) as (pn & Hn & En).
  set (l4 := verifica_classe classe_numero 1 SugNumero senha l3) in *.
  destruct (pontuacao_verifica_classe (classe_especial unicode_isalnum)
              (nao_alfanumerico unicode_isalnum) 2 SugEspecial
              senha l4 classe_especial_spec) as (pe & He & Ee).
  exists pc, pm, pM, pn, pe.
  split; [rewrite Ee, En, EM, Em, Ec; simpl; lia|].
  split; [auto|].
  do 4 (split; [assumption|]).
  eexists; eexists. split; [reflexivity|]. apply nivel_de_conforme.
Qed.

Lemma pontuacao_verifica_classe_limites classe pontos sug senha l :
  0 <= pontos ->
  pontuacao l <= pontuacao (verifica_classe classe pontos sug senha l) <= pontuacao l + pontos.
Proof.
  intros Hp. unfold verifica_classe.
  destruct (re_search classe senha); simpl; lia.
Qed.

(** One check on a character class, decided: either a character of the
    class is there and [re.search] finds one, or none is and it finds none. *)
Ltac decide_classe classe P HP senha :=
  let HE := fresh "HE" in
  let c := fresh "c" in
  let E := fresh "E" in
  destruct (Exists_dec_classe classe P senha HP) as [HE|HE];
  [ destruct (re_search_Some classe P senha HP HE) as [c E]
  | pose proof (re_search_None classe P senha HP HE) as E ];
  rewrite E.

Ltac decide_classes senha :=
  unfold verifica_classe;
  decide_classe classe_minuscula letra_minuscula (entre_spec 97 122) senha;
  decide_classe classe_maiuscula letra_maiuscula (entre_spec 65 90) senha;
  decide_classe classe_numero algarismo (entre_spec 48 57) senha;
  decide_classe (classe_especial unicode_isalnum) (nao_alfanumerico unicode_isalnum)
    classe_especial_spec senha.

Ltac decide_comprimento senha :=
  unfold verifica_comprimento;
  destruct (Z.ltb_spec (Z.of_nat (length senha)) 8);
  [| destruct (Z.ltb_spec (Z.of_nat (length senha)) 12)].

Ltac em_ordem :=
  repeat first
    [ apply SSorted_nil | apply SSorted_cons | apply Forall_nil | apply Forall_cons
    | unfold antes; simpl; lia ].

(** C8.  The suggestions returned are in the order of the checks: the
    length suggestion (one of the two) before the lowercase one, then
    uppercase, digit and special character; each is there exactly when
    its check fails. *)
Theorem sugestoes_na_ordem_das_verificacoes (senha : str) (out : list saida) :
  let n := Z.of_nat (length senha) in
  exists nv sug,
    verificar_forca_senha unicode_isalnum senha out = (Retorna (nv, sug), out) /\
    StronglySorted antes sug /\
    (In SugPeloMenos8 sug <-> n < 8) /\
    (In Sug12OuMais sug <-> 8 <= n < 12) /\
    (In SugMinuscula sug <-> ~ Exists letra_minuscula senha) /\
    (In SugMaiuscula sug <-> ~ Exists letra_maiuscula senha) /\
    (In SugNumero sug <-> ~ Exists algarismo senha) /\
    (In SugEspecial sug <-> ~ Exists (nao_alfanumerico unicode_isalnum) senha).
Proof.
  intros n. subst n.
  unfold verificar_forca_senha, analisa, Py.ret.
  eexists; eexists. split; [reflexivity|].
  decide_comprimento senha; decide_classes senha; simpl;
    (split; [em_ordem|]);
    repeat split; simpl; intros; intuition (try discriminate; try lia).
Qed.

Lemma find_igual {A} (f g : A -> bool) (l : list A) :
  (forall x, f x = g x) -> find f l = find g l.
Proof.
  intros H. induction l as [|x r IH]; [reflexivity|].
  cbn [find]. rewrite H, IH. reflexivity.
Qed.

(** A pattern that compiles to items taking the characters of a class
    makes [verifica_padrao] return what [verifica_classe] gives. *)
Lemma verifica_padrao_classe padrao itens classe pontos sug senha l :
  Re.compile padrao = Re.Compilado itens ->
  (forall c, casa unicode_isalnum itens c = classe c) ->
  verifica_padrao unicode_isalnum padrao pontos sug senha l
  = Devolve (verifica_classe classe pontos sug senha l).
Proof.
  intros Hc Hi. unfold verifica_padrao, re_search_padrao, verifica_classe, re_search.
  rewrite Hc, (find_igual _ _ senha Hi).
  destruct (find classe senha); reflexivity.
Qed.

Lemma casa_intervalo lo hi c :
  casa unicode_isalnum [Re.Intervalo lo hi] c = entre lo hi c.
Proof. unfold casa, entre. cbn [existsb casa_item]. apply orb_false_r. Qed.

Lemma casa_especial c :
  casa unicode_isalnum [Re.NaoPalavra; Re.Literal 95] c = classe_especial unicode_isalnum c.
Proof.
  unfold casa, classe_especial. cbn [existsb casa_item].
  rewrite orb_false_r. reflexivity.
Qed.

(** C9.  [verificar_forca_senha] returns on every string: its four
    patterns are well formed, so that no [re.search] raises [re.error],
    and nothing else in it can raise; it prints nothing, and its result is
    a function of the string alone, the same whatever was printed before
    the call. *)
Theorem verificar_forca_senha_total (senha : str) (out : list saida) :
  exists nv sug,
    verificar_forca_senha_padroes unicode_isalnum senha = Devolve (nv, sug) /\
    verificar_forca_senha unicode_isalnum senha out = (Retorna (nv, sug), out) /\
    forall out', verificar_forca_senha unicode_isalnum senha out' = (Retorna (nv, sug), out').
Proof.
  exists (nivel_de (pontuacao (analisa unicode_isalnum senha))),
         (sugestoes (analisa unicode_isalnum senha)).
  split; [|split; [reflexivity | intros out'; reflexivity]].
  unfold verificar_forca_senha_padroes.
  rewrite (verifica_padrao_classe (str_of "[a-z]") [Re.Intervalo 97 122] classe_minuscula)
    by (reflexivity || apply casa_intervalo).
  cbn [liga_re].
  rewrite (verifica_padrao_classe (str_of "[A-Z]") [Re.Intervalo 65 90] classe_maiuscula)
    by (reflexivity || apply casa_intervalo).
  cbn [liga_re].
  rewrite (verifica_padrao_classe (str_of "[0-9]") [Re.Intervalo 48 57] classe_numero)
    by (reflexivity || apply casa_intervalo).
  cbn [liga_re].
  rewrite (verifica_padrao_classe (str_of "[\W_]") [Re.NaoPalavra; Re.Literal 95]
             (classe_especial unicode_isalnum))
    by (reflexivity || apply casa_especial).
  reflexivity.
Qed.

(** C6.  A password of twelve characters or more with a lowercase
    letter, an uppercase letter, a digit and a non-alphanumeric character
    totals at least 8 and is Forte. *)
Theorem senha_completa_e_forte (senha : str) (out : list saida) :
  12 <= Z.of_nat (length senha) ->
  Exists letra_minuscula senha ->
  Exists letra_maiuscula senha ->
  Exists algarismo senha ->
  Exists (nao_alfanumerico unicode_isalnum) senha ->
  8 <= pontuacao (analisa unicode_isalnum senha) /\
  exists sug, verificar_forca_senha unicode_isalnum senha out = (Retorna (Forte, sug), out).
Proof.
  intros Hn Hm HM Hd He.
  unfold verificar_forca_senha, analisa, Py.ret.
  decide_comprimento senha; try lia.
  decide_classes senha; try contradiction.
  simpl. split; [lia|]. eexists. reflexivity.
Qed.

(** C10.  A password shorter than 8 characters is Muito Fraca whatever
    its characters: its total is at most -5 + 1 + 1 + 1 + 2 = 0. *)
Theorem senha_curta_e_muito_fraca (senha : str) (out : list saida) :
  Z.of_nat (length senha) < 8 ->
  pontuacao (analisa unicode_isalnum senha) <= 0 /\
  exists sug, verificar_forca_senha unicode_isalnum senha out = (Retorna (MuitoFraca, sug), out).
Proof.
  intros Hn.
  assert (Hp : pontuacao (analisa unicode_isalnum senha) <= 0).
  { unfold analisa.
    set (l1 := verifica_comprimento senha _).
    assert (H1 : pontuacao l1 = -5).
    { subst l1. unfold verifica_comprimento.
      destruct (Z.ltb_spec (Z.of_nat (length senha)) 8); [reflexivity | lia]. }
    pose proof (pontuacao_verifica_classe_limites classe_minuscula 1 SugMinuscula senha l1).
    set (l2 := verifica_classe classe_minuscula _ _ _ l1) in *.
    pose proof (pontuacao_verifica_classe_limites classe_maiuscula 1 SugMaiuscula senha l2).
    set (l3 := verifica_classe classe_maiuscula _ _ _ l2) in *.
    pose proof (pontuacao_verifica_classe_limites classe_numero 1 SugNumero senha l3).
    set (l4 := verifica_classe classe_numero _ _ _ l3) in *.
    pose proof (pontuacao_verifica_classe_limites (classe_especial unicode_isalnum) 2
                  SugEspecial senha l4).
    lia. }
  split; [assumption|].
  unfold verificar_forca_senha, Py.ret, nivel_de.
  destruct (Z.ltb_spec (pontuacao (analisa unicode_isalnum senha)) 2); [|lia].
  eexists. reflexivity.
Qed.

(** C4, as the program has it.  For "password" the total is 2, the level
    is Fraca and there are four suggestions: twelve characters or more,
    an uppercase letter, a digit and a special character. *)
Theorem password_fraca_quatro_sugestoes (out : list saida) :
  pontuacao (analisa unicode_isalnum (str_of "password")) = 2 /\
  verificar_forca_senha unicode_isalnum (str_of "password") out =
    (Retorna (Fraca, [Sug12OuMais; SugMaiuscula; SugNumero; SugEspecial]), out).
Proof. split; reflexivity. Qed.

End PropriedadesDoScorer.

(** C4 as the specification words it fails: the suggestions for
    "password" are four, not three. *)
Lemma password_nao_tem_tres_sugestoes :
  verificar_forca_senha (fun _ => false) (str_of "password") [] =
    (Retorna (Fraca, [Sug12OuMais; SugMaiuscula; SugNumero; SugEspecial]), []) /\
  length [Sug12OuMais; SugMaiuscula; SugNumero; SugEspecial] <> 3%nat.
Proof. split; [reflexivity | discriminate]. Qed.

(** Search for a character of a class in a literal. *)
Ltac exibe :=
  first [ apply Exists_cons_hd;
          first [ unfold letra_minuscula, letra_maiuscula, algarismo; simpl; lia
                | reflexivity ]
        | apply Exists_cons_tl; exibe ].

Lemma senha_completa_e_forte_witness :
  8 <= pontuacao (analisa (fun _ => false) (str_of "Senha-Forte-2024")) /\
  exists sug,
    verificar_forca_senha (fun _ => false) (str_of "Senha-Forte-2024") [] =
      (Retorna (Forte, sug), []).
Proof.
  apply (senha_completa_e_forte (fun _ => false) (str_of "Senha-Forte-2024") []).
  - simpl; lia.
  - exibe.
  - exibe.
  - exibe.
  - exibe.
Defined.

Lemma senha_curta_e_muito_fraca_witness :
  pontuacao (analisa (fun _ => false) (str_of "aB3$")) <= 0 /\
  exists sug,
    verificar_forca_senha (fun _ => false) (str_of "aB3$") [] =
      (Retorna (MuitoFraca, sug), []).
Proof.
  apply (senha_curta_e_muito_fraca (fun _ => false) (str_of "aB3$") []).
  simpl; lia.
Defined.

(** * Properties of the digest *)

(** The model of SHA-1 on the test vectors of FIPS 180. *)
Example sha1_vazio :
  sha1_senha [] = str_of "DA39A3EE5E6B4B0D3255BFEF95601890AFD80709".
Proof. vm_compute. reflexivity. Qed.

Example sha1_abc :
  sha1_senha (str_of "abc") = str_of "A9993E364706816ABA3E25717850C26C9CD0D89D".
Proof. vm_compute. reflexivity. Qed.

Example sha1_dois_blocos :
  sha1_senha (str_of "abcdbcdecdefdefgefghfghighijhijkijkljklmklmnlmnomnopnopq")
  = str_of "84983E441C3BD26EBAAE4AA1F95129E5E54670F1".
Proof. vm_compute. reflexivity. Qed.

Lemma utf8_codepoint_escalar c : escalar c -> exists b, utf8_codepoint c = Some b.
Proof.
  intros [Hr Hs]. unfold utf8_codepoint.
  destruct (Z.ltb_spec c 0); [lia|].
  destruct (Z.ltb_spec c 0x80); [eauto|].
  destruct (Z.ltb_spec c 0x800); [eauto|].
  destruct (Z.ltb_spec c 0x10000).
  - destruct (substituto c) eqn:E; [|eauto].
    apply entre_spec in E. contradiction.
  - destruct (Z.ltb_spec c 0x110000); [eauto | lia].
Qed.

Lemma utf8_codificavel senha : codificavel senha -> exists dados, utf8 senha = Some dados.
Proof.
  induction 1 as [|c r Hc _ [bs IH]]; simpl; [eauto|].
  destruct (utf8_codepoint_escalar c Hc) as [b ->]. rewrite IH. eauto.
Qed.

Lemma byte_de_limites x i : 0 <= byte_de x i < 256.
Proof.
  unfold byte_de. change 0xFF with (Z.ones 8).
  rewrite Z.land_ones by lia. apply Z.mod_pos_bound. reflexivity.
Qed.

Lemma digest_bytes h : Forall (fun b => 0 <= b < 256) (digest h).
Proof.
  unfold digest, be32. rewrite !Forall_app.
  repeat split; apply Forall_map, Forall_forall; intros; apply byte_de_limites.
Qed.

Lemma length_digest h : length (digest h) = 20%nat.
Proof. reflexivity. Qed.

Lemma hex_digito_maiusculo n :
  0 <= n < 16 -> hex_maiusculo (upper_codepoint (hex_digito n)).
Proof.
  intros Hn. unfold hex_digito, upper_codepoint, hex_maiusculo.
  destruct (Z.ltb_spec n 10).
  - destruct (classe_minuscula (48 + n)) eqn:E; [apply entre_spec in E|]; lia.
  - destruct (classe_minuscula (87 + n)) eqn:E; [lia|].
    assert (classe_minuscula (87 + n) = true) by (apply entre_spec; lia).
    congruence.
Qed.

Lemma hex_byte_maiusculo b :
  0 <= b < 256 -> Forall hex_maiusculo (upper (hex_byte b)).
Proof.
  intros Hb. unfold hex_byte, upper. simpl.
  apply Forall_cons; [|apply Forall_cons; [|apply Forall_nil]];
    apply hex_digito_maiusculo.
  - rewrite Z.shiftr_div_pow2 by lia. change (2 ^ 4) with 16.
    split; [apply Z.div_pos; lia | apply Z.div_lt_upper_bound; lia].
  - change 0xF with (Z.ones 4). rewrite Z.land_ones by lia.
    apply Z.mod_pos_bound. reflexivity.
Qed.

Lemma length_flat_map_hex_byte bs : length (flat_map hex_byte bs) = (2 * length bs)%nat.
Proof. induction bs as [|b r IH]; simpl; [reflexivity | rewrite IH; lia]. Qed.

Lemma length_sha1_senha dados : length (sha1_senha dados) = 40%nat.
Proof.
  unfold sha1_senha, upper, hexdigest.
  rewrite length_map, length_flat_map_hex_byte, length_digest. reflexivity.
Qed.

Lemma hexdigest_maiusculo bs :
  Forall (fun b => 0 <= b < 256) bs ->
  Forall hex_maiusculo (upper (flat_map hex_byte bs)).
Proof.
  induction 1 as [|b r Hb _ IH]; [constructor|].
  change (flat_map hex_byte (b :: r)) with (hex_byte b ++ flat_map hex_byte r).
  unfold upper in *. rewrite map_app. apply Forall_app. split; [|exact IH].
  apply (hex_byte_maiusculo b Hb).
Qed.

Lemma sha1_senha_maiusculo dados : Forall hex_maiusculo (sha1_senha dados).
Proof. apply hexdigest_maiusculo, digest_bytes. Qed.

(** ** The digest against the standards *)

(** ** Bits and arithmetic *)

Lemma lor_mais a b k :
  0 <= k -> 0 <= b < 2 ^ k -> Z.lor (a * 2 ^ k) b = a * 2 ^ k + b.
Proof.
  intros Hk Hb.
  assert (H0 : Z.land (a * 2 ^ k) b = 0).
  { apply Z.bits_inj'. intros n Hn. rewrite Z.land_spec, Z.bits_0.
    destruct (Z.lt_ge_cases n k) as [Hlt|Hge].
    - rewrite Z.mul_pow2_bits_low by lia. reflexivity.
    - rewrite <- (Z.mod_small b (2 ^ k)) by lia.
      rewrite Z.mod_pow2_bits_high by lia. apply andb_false_r. }
  rewrite <- (Z.lxor_lor _ _ H0). symmetry. apply Z.add_nocarry_lxor, H0.
Qed.

Lemma land_mod a k : 0 <= k -> Z.land a (Z.ones k) = a mod 2 ^ k.
Proof. intros Hk. apply Z.land_ones, Hk. Qed.

Lemma mask32_mod x : mask32 x = x mod 2 ^ 32.
Proof. unfold mask32. change 0xFFFFFFFF with (Z.ones 32). apply Z.land_ones. lia. Qed.

Lemma palavra32_mask x : palavra32 (mask32 x).
Proof. unfold palavra32. rewrite mask32_mod. apply Z.mod_pos_bound. reflexivity. Qed.

Lemma mask32_palavra32 x : palavra32 x -> mask32 x = x.
Proof. intros H. rewrite mask32_mod. apply Z.mod_small, H. Qed.

Lemma land_lxor_distr a b c :
  Z.land (Z.lxor a b) c = Z.lxor (Z.land a c) (Z.land b c).
Proof.
  apply Z.bits_inj'. intros n Hn.
  rewrite !Z.land_spec, !Z.lxor_spec, !Z.land_spec.
  destruct (Z.testbit a n), (Z.testbit b n), (Z.testbit c n); reflexivity.
Qed.

Lemma palavra32_lxor x y : palavra32 x -> palavra32 y -> palavra32 (Z.lxor x y).
Proof.
  intros Hx Hy.
  rewrite <- (mask32_palavra32 x Hx), <- (mask32_palavra32 y Hy).
  unfold mask32. rewrite <- land_lxor_distr. apply palavra32_mask.
Qed.

Lemma add32_soma x y : add32 x y = FIPS180.soma x y.
Proof. apply mask32_mod. Qed.

Lemma add32_cinco r f e k w :
  add32 (add32 (add32 (add32 r f) e) k) w = (r + f + e + k + w) mod 2 ^ 32.
Proof.
  unfold add32. rewrite !mask32_mod.
  repeat (rewrite Zplus_mod_idemp_l || rewrite <- Z.add_assoc).
  apply (f_equal (fun v => v mod 2 ^ 32)). ring.
Qed.

Lemma rotl32_ROTL n x :
  0 < n < 32 -> palavra32 x -> rotl32 n x = FIPS180.ROTL n x.
Proof.
  intros Hn Hx. unfold rotl32, FIPS180.ROTL, mask32.
  rewrite Z.land_lor_distr_l. change 0xFFFFFFFF with (Z.ones 32).
  rewrite !Z.land_ones by lia.
  rewrite Z.shiftl_mul_pow2, Z.shiftr_div_pow2 by lia.
  f_equal. apply Z.mod_small.
  unfold palavra32 in Hx.
  assert (Hp : 0 < 2 ^ (32 - n)) by (apply Z.pow_pos_nonneg; lia).
  split.
  - apply Z.div_pos; lia.
  - apply Z.div_lt_upper_bound; [lia|].
    change (2 ^ 32) with 4294967296 in *. nia.
Qed.

Lemma mask32_lnot x : palavra32 x -> mask32 (Z.lnot x) = FIPS180.NOT x.
Proof.
  intros Hx. rewrite mask32_mod. unfold FIPS180.NOT, Z.lnot, palavra32 in *.
  symmetry. apply Z.mod_unique with (q := -1); lia.
Qed.

Lemma Ch_lor x y z :
  Z.lor (Z.land x y) (Z.land (mask32 (Z.lnot x)) z)
  = Z.lxor (Z.land x y) (Z.land (mask32 (Z.lnot x)) z).
Proof.
  symmetry. apply Z.lxor_lor. apply Z.bits_inj'. intros n Hn.
  unfold mask32. rewrite !Z.land_spec, Z.lnot_spec, Z.bits_0 by lia.
  destruct (Z.testbit x n); simpl; [rewrite andb_false_r|]; reflexivity.
Qed.

Lemma Maj_lor x y z :
  Z.lor (Z.lor (Z.land x y) (Z.land x z)) (Z.land y z)
  = Z.lxor (Z.lxor (Z.land x y) (Z.land x z)) (Z.land y z).
Proof.
  apply Z.bits_inj'. intros n Hn.
  rewrite !Z.lor_spec, !Z.lxor_spec, !Z.land_spec.
  destruct (Z.testbit x n), (Z.testbit y n), (Z.testbit z n); reflexivity.
Qed.

Lemma f_sha1_f t b c d : palavra32 b -> f_sha1 t b c d = FIPS180.f t b c d.
Proof.
  intros Hb. unfold f_sha1, FIPS180.f.
  destruct (t <? 20)%nat.
  - unfold FIPS180.Ch. rewrite Ch_lor, (mask32_lnot b Hb). reflexivity.
  - destruct (t <? 40)%nat; [reflexivity|].
    destruct (t <? 60)%nat; [apply Maj_lor | reflexivity].
Qed.

Lemma k_sha1_K t : k_sha1 t = FIPS180.K t.
Proof. reflexivity. Qed.

Lemma byte_de_div x i : 0 <= i -> byte_de x i = (x / 2 ^ (8 * i)) mod 256.
Proof.
  intros Hi. unfold byte_de. change 0xFF with (Z.ones 8).
  rewrite Z.land_ones, Z.shiftr_div_pow2 by lia. reflexivity.
Qed.

(** ** UTF-8 *)

Lemma utf8_codepoint_octetos c :
  escalar c -> utf8_codepoint c = Some (RFC3629.octetos c).
Proof.
  intros [Hr Hs]. unfold utf8_codepoint, RFC3629.octetos.
  destruct (Z.ltb_spec c 0); [lia|].
  destruct (Z.ltb_spec c 0x80); [reflexivity|].
  change 0x3F with (Z.ones 6). rewrite !Z.land_ones by lia.
  rewrite !Z.shiftr_div_pow2 by lia.
  change (2 ^ 6) with 0x40. change (2 ^ 12) with 0x1000. change (2 ^ 18) with 0x40000.
  assert (H80 : forall x, 0 <= x < 0x40 -> Z.lor 0x80 x = 0x80 + x).
  { intros x Hx. change 0x80 with (1 * 2 ^ 7). apply lor_mais; [lia|].
    change (2 ^ 7) with 128. lia. }
  assert (Hm : forall x, 0 <= x mod 0x40 < 0x40)
    by (intros x; apply Z.mod_pos_bound; reflexivity).
  rewrite !(H80 _ (Hm _)).
  destruct (Z.ltb_spec c 0x800).
  - do 2 f_equal. change 0xC0 with (3 * 2 ^ 6). apply lor_mais; [lia|].
    change (2 ^ 6) with 64. Z.div_mod_to_equations. lia.
  - destruct (Z.ltb_spec c 0x10000).
    + destruct (substituto c) eqn:E; [apply entre_spec in E; contradiction|].
      do 2 f_equal. change 0xE0 with (7 * 2 ^ 5). apply lor_mais; [lia|].
      change (2 ^ 5) with 32. Z.div_mod_to_equations. lia.
    + destruct (Z.ltb_spec c 0x110000); [|lia].
      do 2 f_equal. change 0xF0 with (15 * 2 ^ 4). apply lor_mais; [lia|].
      change (2 ^ 4) with 16. Z.div_mod_to_equations. lia.
Qed.

Lemma utf8_encode senha :
  codificavel senha -> utf8 senha = Some (RFC3629.encode senha).
Proof.
  induction 1 as [|c r Hc _ IH]; [reflexivity|].
  cbn [utf8 RFC3629.encode flat_map].
  rewrite (utf8_codepoint_octetos c Hc), IH. reflexivity.
Qed.

Lemma octetos_bytes c :
  escalar c -> Forall (fun b => 0 <= b < 256) (RFC3629.octetos c).
Proof.
  intros [Hr Hs]. unfold RFC3629.octetos.
  destruct (Z.ltb_spec c 0x80); [repeat constructor; lia|].
  destruct (Z.ltb_spec c 0x800);
    [repeat constructor; Z.div_mod_to_equations; lia|].
  destruct (Z.ltb_spec c 0x10000);
    repeat constructor; Z.div_mod_to_equations; lia.
Qed.

Lemma encode_bytes senha :
  codificavel senha -> Forall (fun b => 0 <= b < 256) (RFC3629.encode senha).
Proof.
  induction 1 as [|c r Hc _ IH]; [constructor|].
  cbn [RFC3629.encode flat_map]. apply Forall_app. split; [apply octetos_bytes, Hc | exact IH].
Qed.

(** ** The padding *)

Lemma find_primeiro (P : nat -> bool) (n s k : nat) :
  (s <= k < s + n)%nat -> P k = true ->
  (forall j, (s <= j < k)%nat -> P j = false) ->
  find P (seq s n) = Some k.
Proof.
  revert s. induction n as [|n IH]; intros s Hk Pk Hj; [lia|].
  cbn [seq find]. destruct (Nat.eq_dec s k) as [->|Hne].
  - rewrite Pk. reflexivity.
  - rewrite (Hj s) by lia. apply IH; [lia | exact Pk | intros j H; apply Hj; lia].
Qed.

Lemma zeros_mod l :
  FIPS180.zeros l = Z.to_nat ((55 - Z.of_nat l) mod 64).
Proof.
  unfold FIPS180.zeros.
  rewrite (find_primeiro _ 64 0 (Z.to_nat ((55 - Z.of_nat l) mod 64))); [reflexivity| | |].
  - pose proof (Z.mod_pos_bound (55 - Z.of_nat l) 64 ltac:(lia)). lia.
  - apply Z.eqb_eq. rewrite !Nat2Z.inj_add, Z2Nat.id
      by (apply Z.mod_pos_bound; lia).
    Z.div_mod_to_equations. lia.
  - intros j Hj. apply Z.eqb_neq. intros E.
    pose proof (Z.mod_pos_bound (55 - Z.of_nat l) 64 ltac:(lia)).
    rewrite !Nat2Z.inj_add in E.
    assert (Z.of_nat j < (55 - Z.of_nat l) mod 64) by lia.
    revert E. Z.div_mod_to_equations. lia.
Qed.

Lemma be64_comprimento64 x : be64 x = FIPS180.comprimento64 x.
Proof.
  unfold be64, FIPS180.comprimento64. cbn [map].
  rewrite !byte_de_div by lia. reflexivity.
Qed.

Lemma preenche_preenchida m : preenche m = FIPS180.preenchida m.
Proof.
  unfold preenche, FIPS180.preenchida.
  rewrite zeros_mod, be64_comprimento64. reflexivity.
Qed.

Lemma preenchida_bytes m :
  Forall (fun b => 0 <= b < 256) m ->
  Forall (fun b => 0 <= b < 256) (FIPS180.preenchida m).
Proof.
  intros Hm. unfold FIPS180.preenchida.
  apply Forall_app. split; [exact Hm|].
  apply Forall_app. split; [repeat constructor; lia|].
  apply Forall_app. split.
  - apply Forall_forall. intros b Hb. apply repeat_spec in Hb. lia.
  - rewrite <- be64_comprimento64. unfold be64.
    apply Forall_map, Forall_forall. intros i _. apply byte_de_limites.
Qed.

(** ** The words of a block *)

Lemma length_palavras n bs :
  length bs = (4 * n)%nat -> length (palavras bs) = n.
Proof.
  revert bs. induction n as [|n IH]; intros bs H.
  - destruct bs; [reflexivity | simpl in H; lia].
  - destruct bs as [|b0 [|b1 [|b2 [|b3 r]]]]; try (simpl in H; lia).
    cbn [palavras length]. rewrite (IH r); [reflexivity|]. simpl in H. lia.
Qed.

Lemma nth_palavras t bs :
  (4 * (t + 1) <= length bs)%nat ->
  nth t (palavras bs) 0 =
    Z.lor (Z.lor (Z.lor (Z.shiftl (nth (4 * t) bs 0) 24)
                        (Z.shiftl (nth (4 * t + 1) bs 0) 16))
                 (Z.shiftl (nth (4 * t + 2) bs 0) 8))
          (nth (4 * t + 3) bs 0).
Proof.
  revert bs. induction t as [|t IH]; intros bs H.
  - destruct bs as [|b0 [|b1 [|b2 [|b3 r]]]]; try (simpl in H; lia). reflexivity.
  - destruct bs as [|b0 [|b1 [|b2 [|b3 r]]]]; try (simpl in H; lia).
    cbn [palavras nth]. rewrite IH by (simpl in H; lia).
    replace (4 * S t)%nat with (S (S (S (S (4 * t))))) by lia.
    reflexivity.
Qed.

Lemma palavra_de_octetos b0 b1 b2 b3 :
  0 <= b0 < 256 -> 0 <= b1 < 256 -> 0 <= b2 < 256 -> 0 <= b3 < 256 ->
  Z.lor (Z.lor (Z.lor (Z.shiftl b0 24) (Z.shiftl b1 16)) (Z.shiftl b2 8)) b3
  = b0 * 2 ^ 24 + b1 * 2 ^ 16 + b2 * 2 ^ 8 + b3.
Proof.
  intros H0 H1 H2 H3. rewrite !Z.shiftl_mul_pow2 by lia.
  replace (b0 * 2 ^ 24) with (b0 * 2 ^ 8 * 2 ^ 16) by (change (2 ^ 24) with (2 ^ 8 * 2 ^ 16); ring).
  change (2 ^ 8) with 256. change (2 ^ 16) with 65536.
  assert (E1 : Z.lor (b0 * 256 * 65536) (b1 * 65536) = (b0 * 256 + b1) * 256 * 256).
  { replace (b0 * 256 * 65536) with (b0 * 2 ^ 24) by (change (2 ^ 24) with 16777216; ring).
    rewrite lor_mais; [change (2 ^ 24) with 16777216; ring | lia |].
    change (2 ^ 24) with 16777216. lia. }
  rewrite E1.
  assert (E2 : Z.lor ((b0 * 256 + b1) * 256 * 256) (b2 * 256) = ((b0 * 256 + b1) * 256 + b2) * 256).
  { replace ((b0 * 256 + b1) * 256 * 256) with ((b0 * 256 + b1) * 2 ^ 16)
      by (change (2 ^ 16) with 65536; ring).
    rewrite lor_mais; [change (2 ^ 16) with 65536; ring | lia |].
    change (2 ^ 16) with 65536. lia. }
  rewrite E2.
  replace (((b0 * 256 + b1) * 256 + b2) * 256) with (((b0 * 256 + b1) * 256 + b2) * 2 ^ 8)
    by (change (2 ^ 8) with 256; ring).
  rewrite lor_mais; [change (2 ^ 8) with 256; ring | lia |].
  change (2 ^ 8) with 256. lia.
Qed.

Lemma palavra_de_octetos_32 b0 b1 b2 b3 :
  0 <= b0 < 256 -> 0 <= b1 < 256 -> 0 <= b2 < 256 -> 0 <= b3 < 256 ->
  palavra32 (b0 * 2 ^ 24 + b1 * 2 ^ 16 + b2 * 2 ^ 8 + b3).
Proof.
  unfold palavra32. change (2 ^ 24) with 16777216. change (2 ^ 16) with 65536.
  change (2 ^ 8) with 256. change (2 ^ 32) with 4294967296. lia.
Qed.

Lemma nth_bytes (p : bytes) i :
  Forall (fun b => 0 <= b < 256) p -> 0 <= nth i p 0 < 256.
Proof.
  intros Hp. destruct (Nat.lt_ge_cases i (length p)) as [Hi|Hi].
  - apply (proj1 (Forall_forall _ p) Hp). apply nth_In, Hi.
  - rewrite nth_overflow by exact Hi. lia.
Qed.

Lemma nth_bloco (p : bytes) i k :
  (k < 64)%nat -> nth k (firstn 64 (skipn (64 * i) p)) 0 = nth (64 * i + k) p 0.
Proof.
  intros Hk. rewrite nth_firstn.
  destruct (Nat.ltb_spec k 64); [|lia]. apply nth_skipn.
Qed.

(** The words the program reads in block [i] are those of section 5.2.1. *)
Lemma palavras_M (p : bytes) i t :
  Forall (fun b => 0 <= b < 256) p ->
  (64 * (i + 1) <= length p)%nat -> (t < 16)%nat ->
  nth t (palavras (firstn 64 (skipn (64 * i) p))) 0 = FIPS180.M p i t.
Proof.
  intros Hp Hl Ht.
  rewrite nth_palavras
    by (rewrite length_firstn, length_skipn; lia).
  rewrite !nth_bloco by lia. unfold FIPS180.M.
  rewrite palavra_de_octetos by (apply nth_bytes, Hp).
  rewrite !Nat.add_assoc. reflexivity.
Qed.

Lemma length_bloco (p : bytes) i :
  (64 * (i + 1) <= length p)%nat -> length (firstn 64 (skipn (64 * i) p)) = 64%nat.
Proof. intros H. rewrite length_firstn, length_skipn. lia. Qed.

(** ** The message schedule *)

Lemma length_expande n w : length (expande n w) = (length w + n)%nat.
Proof.
  revert w. induction n as [|n IH]; intros w; cbn [expande]; [lia|].
  rewrite IH, length_app. cbn [length]. lia.
Qed.

Lemma nth_expande_prefixo n w k :
  (k < length w)%nat -> nth k (expande n w) 0 = nth k w 0.
Proof.
  revert w. induction n as [|n IH]; intros w Hk; cbn [expande]; [reflexivity|].
  rewrite IH by (rewrite length_app; cbn [length]; lia).
  apply app_nth1, Hk.
Qed.

Lemma nth_expande_rec n w j :
  (16 <= length w)%nat -> (j < n)%nat ->
  let t := (length w + j)%nat in
  let W := expande n w in
  nth t W 0 =
    rotl32 1 (Z.lxor (Z.lxor (Z.lxor (nth (t - 3) W 0) (nth (t - 8) W 0))
                             (nth (t - 14) W 0)) (nth (t - 16) W 0)).
Proof.
  revert w j. induction n as [|n IH]; intros w j Hw Hj; [lia|].
  cbn zeta. cbn [expande].
  set (x := rotl32 1 _).
  destruct j as [|j].
  - rewrite Nat.add_0_r.
    rewrite !nth_expande_prefixo by (rewrite length_app; cbn [length]; lia).
    rewrite app_nth2, Nat.sub_diag by lia. cbn [nth].
    rewrite !app_nth1 by lia. reflexivity.
  - specialize (IH (w ++ [x]) j).
    rewrite length_app in IH. cbn [length] in IH.
    replace (length w + S j)%nat with (length w + 1 + j)%nat by lia.
    apply IH; lia.
Qed.

Lemma expande_palavra32 n w :
  Forall palavra32 w -> Forall palavra32 (expande n w).
Proof.
  revert w. induction n as [|n IH]; intros w Hw; cbn [expande]; [exact Hw|].
  apply IH, Forall_app. split; [exact Hw|].
  constructor; [apply palavra32_mask | constructor].
Qed.

Lemma nth_palavra32 (w : list Z) k : Forall palavra32 w -> palavra32 (nth k w 0).
Proof.
  intros Hw. destruct (Nat.lt_ge_cases k (length w)) as [Hk|Hk].
  - apply (proj1 (Forall_forall _ w) Hw). apply nth_In, Hk.
  - rewrite nth_overflow by exact Hk. unfold palavra32.
    change (2 ^ 32) with 4294967296. lia.
Qed.

Lemma firstn_S_nth {A} (l : list A) n d :
  (n < length l)%nat -> firstn (S n) l = firstn n l ++ [nth n l d].
Proof.
  revert n. induction l as [|a l IH]; intros n Hn; [simpl in Hn; lia|].
  destruct n as [|n]; [reflexivity|].
  change (firstn (S (S n)) (a :: l)) with (a :: firstn (S n) l).
  change (firstn (S n) (a :: l)) with (a :: firstn n l).
  change (nth (S n) (a :: l) d) with (nth n l d).
  rewrite (IH n) by (simpl in Hn; lia). reflexivity.
Qed.

Lemma nth_rev_firstn (l : list Z) t k :
  (t < length l)%nat -> (k <= t)%nat ->
  nth k (rev (firstn (S t) l)) 0 = nth (t - k) l 0.
Proof.
  intros Ht Hk.
  rewrite rev_nth by (rewrite length_firstn; lia).
  rewrite length_firstn, Nat.min_l by lia.
  rewrite nth_firstn. destruct (Nat.ltb_spec (S t - S k) (S t)); [|lia].
  reflexivity.
Qed.

(** The schedule of the program, read by index, is the one of section
    6.1.2. *)
Lemma Wate_expande (m : nat -> Z) (w : list Z) :
  length w = 16%nat -> Forall palavra32 w ->
  (forall t, (t < 16)%nat -> m t = nth t w 0) ->
  forall t, (t < 80)%nat -> FIPS180.Wate m t = rev (firstn (S t) (expande 64 w)).
Proof.
  intros Hl Hw Hm. set (Wl := expande 64 w).
  assert (HWl : length Wl = 80%nat) by (unfold Wl; rewrite length_expande; lia).
  assert (HP : Forall palavra32 Wl) by (apply expande_palavra32, Hw).
  induction t as [|t IH]; intros Ht.
  - cbn [FIPS180.Wate]. rewrite (Hm 0%nat) by lia.
    unfold Wl. rewrite <- (nth_expande_prefixo 64 w 0) by lia. fold Wl.
    destruct Wl as [|x r]; [simpl in HWl; lia | reflexivity].
  - cbn [FIPS180.Wate]. rewrite IH by lia.
    rewrite (firstn_S_nth Wl (S t) 0) by lia. rewrite rev_app_distr. cbn [rev app].
    f_equal.
    destruct (Nat.ltb_spec (S t) 16) as [H16|H16].
    + rewrite (Hm (S t) H16). unfold Wl. symmetry. apply nth_expande_prefixo. lia.
    + rewrite !nth_rev_firstn by lia.
      pose proof (nth_expande_rec 64 w (S t - 16) ltac:(lia) ltac:(lia)) as E.
      cbn zeta in E. rewrite Hl in E.
      replace (16 + (S t - 16))%nat with (S t) in E by lia. fold Wl in E.
      rewrite E.
      replace (S t - 3)%nat with (t - 2)%nat by lia.
      replace (S t - 8)%nat with (t - 7)%nat by lia.
      replace (S t - 14)%nat with (t - 13)%nat by lia.
      replace (S t - 16)%nat with (t - 15)%nat by lia.
      symmetry. apply rotl32_ROTL; [lia|].
      repeat apply palavra32_lxor; apply nth_palavra32, HP.
Qed.

Lemma W_expande (m : nat -> Z) (w : list Z) t :
  length w = 16%nat -> Forall palavra32 w ->
  (forall t, (t < 16)%nat -> m t = nth t w 0) ->
  (t < 80)%nat -> FIPS180.W m t = nth t (expande 64 w) 0.
Proof.
  intros Hl Hw Hm Ht. unfold FIPS180.W.
  rewrite (Wate_expande m w Hl Hw Hm t Ht).
  assert (HWl : length (expande 64 w) = 80%nat) by (rewrite length_expande; lia).
  rewrite (firstn_S_nth _ t 0) by lia. rewrite rev_app_distr. reflexivity.
Qed.

(** ** The eighty turns and the blocks *)

Lemma palavra32_mod x : palavra32 (x mod 2 ^ 32).
Proof. apply Z.mod_pos_bound. reflexivity. Qed.

Lemma skipn_nth (l : list Z) t :
  (t < length l)%nat -> skipn t l = nth t l 0 :: skipn (S t) l.
Proof.
  revert t. induction l as [|a l IH]; intros t Ht; [simpl in Ht; lia|].
  destruct t as [|t]; [reflexivity|].
  change (skipn (S t) (a :: l)) with (skipn t l).
  change (skipn (S (S t)) (a :: l)) with (skipn (S t) l).
  change (nth (S t) (a :: l) 0) with (nth t l 0).
  apply IH. simpl in Ht. lia.
Qed.

(** One turn of the program is one turn of step 3. *)
Lemma passo_do_modelo (m : nat -> Z) (v : estado_sha1) (t : nat) (w : Z) :
  estado32 v -> FIPS180.W m t = w ->
  let v' := FIPS180.passo_t m v t in
  add32 (add32 (add32 (add32 (rotl32 5 (h0 v)) (f_sha1 t (h1 v) (h2 v) (h3 v))) (h4 v))
               (k_sha1 t)) w = h0 v' /\
  h0 v = h1 v' /\ rotl32 30 (h1 v) = h2 v' /\ h2 v = h3 v' /\ h3 v = h4 v' /\
  estado32 v'.
Proof.
  intros (Ha & Hb & Hc & Hd & He) Hw. cbn zeta. unfold FIPS180.passo_t. cbn [h0 h1 h2 h3 h4].
  rewrite add32_cinco, (rotl32_ROTL 5 _ ltac:(lia) Ha), (f_sha1_f t _ _ _ Hb), k_sha1_K, Hw.
  rewrite (rotl32_ROTL 30 _ ltac:(lia) Hb).
  do 5 (split; [reflexivity|]).
  unfold estado32. cbn [h0 h1 h2 h3 h4].
  split; [apply palavra32_mod|]. split; [exact Ha|].
  split; [rewrite <- (rotl32_ROTL 30 _ ltac:(lia) Hb); apply palavra32_mask|].
  split; [exact Hc | exact Hd].
Qed.

Lemma rodadas_passos (m : nat -> Z) (Wl : list Z) :
  length Wl = 80%nat ->
  (forall t, (t < 80)%nat -> FIPS180.W m t = nth t Wl 0) ->
  forall n t v, (t + n = 80)%nat -> estado32 v ->
    rodadas (skipn t Wl) t (h0 v) (h1 v) (h2 v) (h3 v) (h4 v)
      = fold_left (FIPS180.passo_t m) (seq t n) v /\
    estado32 (fold_left (FIPS180.passo_t m) (seq t n) v).
Proof.
  intros HWl HW. induction n as [|n IH]; intros t v Ht Hv.
  - rewrite skipn_all2 by lia. cbn [rodadas seq fold_left].
    split; [destruct v; reflexivity | exact Hv].
  - rewrite (skipn_nth Wl t) by lia. cbn [rodadas seq fold_left].
    destruct (passo_do_modelo m v t (nth t Wl 0) Hv (HW t ltac:(lia)))
      as (E0 & E1 & E2 & E3 & E4 & Hv').
    cbn zeta in *. rewrite E0, E1, E2, E3, E4.
    apply IH; [lia | exact Hv'].
Qed.

Lemma rodadas_todas (m : nat -> Z) (Wl : list Z) (v : estado_sha1) :
  length Wl = 80%nat ->
  (forall t, (t < 80)%nat -> FIPS180.W m t = nth t Wl 0) ->
  estado32 v ->
  rodadas Wl 0 (h0 v) (h1 v) (h2 v) (h3 v) (h4 v)
    = fold_left (FIPS180.passo_t m) (seq 0 80) v.
Proof.
  intros HWl HW Hv.
  exact (proj1 (rodadas_passos m Wl HWl HW 80 0 v eq_refl Hv)).
Qed.

Lemma soma_comm x y : FIPS180.soma x y = FIPS180.soma y x.
Proof. unfold FIPS180.soma. rewrite Z.add_comm. reflexivity. Qed.

(** The compression of one block is steps 1 to 4 of section 6.1.2. *)
Lemma comprime_bloco (H : estado_sha1) (blk : bytes) (m : nat -> Z) :
  estado32 H -> length blk = 64%nat ->
  Forall palavra32 (palavras blk) ->
  (forall t, (t < 16)%nat -> m t = nth t (palavras blk) 0) ->
  comprime H blk = FIPS180.bloco H m.
Proof.
  intros HH Hl Hp Hm.
  assert (Hl16 : length (palavras blk) = 16%nat) by (apply length_palavras; rewrite Hl; reflexivity).
  assert (HWl : length (expande 64 (palavras blk)) = 80%nat)
    by (rewrite length_expande, Hl16; reflexivity).
  unfold comprime, FIPS180.bloco. cbv zeta.
  rewrite (rodadas_todas m (expande 64 (palavras blk)) H HWl
             (fun t Ht => W_expande m (palavras blk) t Hl16 Hp Hm Ht) HH).
  rewrite !add32_soma.
  f_equal; apply soma_comm.
Qed.

Lemma comprime_estado32 (H : estado_sha1) (blk : bytes) : estado32 (comprime H blk).
Proof.
  unfold comprime, estado32. cbv zeta. cbn [h0 h1 h2 h3 h4].
  do 4 (split; [apply palavra32_mask|]). apply palavra32_mask.
Qed.

Lemma palavras_palavra32 (p : bytes) i :
  Forall (fun b => 0 <= b < 256) p -> (64 * (i + 1) <= length p)%nat ->
  Forall palavra32 (palavras (firstn 64 (skipn (64 * i) p))).
Proof.
  intros Hp Hl. apply Forall_forall. intros x Hx.
  apply (In_nth _ _ 0) in Hx as (t & Ht & <-).
  rewrite (length_palavras 16) in Ht by (rewrite length_bloco by exact Hl; reflexivity).
  rewrite (palavras_M p i t Hp Hl Ht). unfold FIPS180.M.
  apply palavra_de_octetos_32; apply nth_bytes, Hp.
Qed.

Lemma blocos_seq (p : bytes) :
  Forall (fun b => 0 <= b < 256) p ->
  forall n k H, estado32 H -> (64 * (k + n) <= length p)%nat ->
    fold_left comprime (blocos n (skipn (64 * k) p)) H
    = fold_left (fun H i => FIPS180.bloco H (FIPS180.M p i)) (seq k n) H.
Proof.
  intros Hp. induction n as [|n IH]; intros k H HH Hl; [reflexivity|].
  cbn [blocos seq fold_left].
  rewrite skipn_skipn.
  replace (64 + 64 * k)%nat with (64 * S k)%nat by lia.
  rewrite IH by (try apply comprime_estado32; lia).
  f_equal. apply comprime_bloco.
  - exact HH.
  - apply length_bloco. lia.
  - apply palavras_palavra32; [exact Hp | lia].
  - intros t Ht. symmetry. apply palavras_M; [exact Hp | lia | exact Ht].
Qed.

Lemma H0_estado32 : estado32 inicial_sha1.
Proof.
  unfold estado32, palavra32, inicial_sha1. cbn [h0 h1 h2 h3 h4].
  change (2 ^ 32) with 4294967296. lia.
Qed.

(** What the program computes for [hashlib.sha1] is SHA-1. *)
Lemma hashlib_sha1_SHA1 (m : bytes) :
  Forall (fun b => 0 <= b < 256) m -> hashlib_sha1 m = FIPS180.SHA1 m.
Proof.
  intros Hm. unfold hashlib_sha1, FIPS180.SHA1. cbv zeta.
  rewrite preenche_preenchida. set (p := FIPS180.preenchida m).
  pose proof (blocos_seq p (preenchida_bytes m Hm) (length p / 64) 0 inicial_sha1
                H0_estado32) as E.
  change (skipn (64 * 0) p) with p in E. apply E.
  rewrite Nat.add_0_l. apply Nat.Div0.mul_div_le.
Qed.

(** ** The hexadecimal digest *)

Lemma be32_octetos x : be32 x = FIPS180.octetos_da_palavra x.
Proof.
  unfold be32, FIPS180.octetos_da_palavra. cbn [map].
  rewrite !byte_de_div by lia. change (8 * 0) with 0.
  rewrite Z.pow_0_r, Z.div_1_r. reflexivity.
Qed.

Lemma digest_resumo h : digest h = FIPS180.resumo h.
Proof.
  unfold digest, FIPS180.resumo. cbn [flat_map].
  rewrite !be32_octetos, app_nil_r. reflexivity.
Qed.

Lemma hex_digito_alfabeto n :
  0 <= n < 16 -> upper_codepoint (hex_digito n) = nth (Z.to_nat n) alfabeto_hex 0.
Proof.
  intros Hn.
  assert (Hk : (Z.to_nat n < 16)%nat) by lia.
  rewrite <- (Z2Nat.id n) at 1 by lia.
  revert Hk. generalize (Z.to_nat n). intros k Hk.
  do 16 (destruct k as [|k]; [reflexivity|]). lia.
Qed.

Lemma hex_byte_octeto b : 0 <= b < 256 -> upper (hex_byte b) = hex_do_octeto b.
Proof.
  intros Hb. unfold hex_byte, hex_do_octeto, upper. cbn [map].
  change 0xF with (Z.ones 4). rewrite Z.land_ones, Z.shiftr_div_pow2 by lia.
  change (2 ^ 4) with 16.
  rewrite !hex_digito_alfabeto; [reflexivity| |].
  - apply Z.mod_pos_bound. lia.
  - Z.div_mod_to_equations. lia.
Qed.

Lemma upper_hexdigest bs :
  Forall (fun b => 0 <= b < 256) bs ->
  upper (flat_map hex_byte bs) = hex_maiusculas bs.
Proof.
  induction 1 as [|b r Hb _ IH]; [reflexivity|].
  change (flat_map hex_byte (b :: r)) with (hex_byte b ++ flat_map hex_byte r).
  unfold upper in *. rewrite map_app, IH.
  change (map upper_codepoint (hex_byte b)) with (upper (hex_byte b)).
  rewrite (hex_byte_octeto b Hb). reflexivity.
Qed.

(** The digest of the program is the digest of the specification. *)
Lemma sha1_senha_norma (senha : str) :
  codificavel senha -> sha1_senha (RFC3629.encode senha) = digest_da_norma senha.
Proof.
  intros Hs. unfold sha1_senha, hexdigest, digest_da_norma.
  rewrite (upper_hexdigest _ (digest_bytes _)), digest_resumo.
  rewrite (hashlib_sha1_SHA1 _ (encode_bytes senha Hs)). reflexivity.
Qed.

(** The standards on the test vectors of FIPS 180 and on a text outside
    ASCII. *)
Example digest_da_norma_abc :
  digest_da_norma (str_of "abc") = str_of "A9993E364706816ABA3E25717850C26C9CD0D89D".
Proof. vm_compute. reflexivity. Qed.

Example digest_da_norma_dois_blocos :
  digest_da_norma (str_of "abcdbcdecdefdefgefghfghighijhijkijkljklmklmnlmnomnopnopq")
  = str_of "84983E441C3BD26EBAAE4AA1F95129E5E54670F1".
Proof. vm_compute. reflexivity. Qed.

Example encode_fora_do_ascii :
  RFC3629.encode [0xE9; 0x20AC; 0x1F600]
  = [0xC3; 0xA9; 0xE2; 0x82; 0xAC; 0xF0; 0x9F; 0x98; 0x80].
Proof. reflexivity. Qed.


(** C3, as the program has it.  The digest of "password" is
    5BAA61E4C9B93F3F0682250B6CF8331B7EE68FD8: forty characters, with
    prefix 5BAA6 and suffix 1E4C9B93F3F0682250B6CF8331B7EE68FD8. *)
Theorem digest_de_password (out : list saida) :
  exists dados,
    encode_utf8 (str_of "password") out = (Retorna dados, out) /\
    sha1_senha dados = str_of "5BAA61E4C9B93F3F0682250B6CF8331B7EE68FD8" /\
    prefixo_hash dados = str_of "5BAA6" /\
    sufixo_hash dados = str_of "1E4C9B93F3F0682250B6CF8331B7EE68FD8".
Proof.
  exists (str_of "password").
  split; [reflexivity|]. repeat split; vm_compute; reflexivity.
Qed.

(** C3 as the specification words it fails: the digest of "password" is
    not the 39 characters it gives, nor the suffix its 34. *)
Lemma digest_de_password_nao_e_o_da_especificacao :
  encode_utf8 (str_of "password") [] = (Retorna (str_of "password"), []) /\
  sha1_senha (str_of "password") <> str_of "5BAA61E4C9B93F3F0682250B6CF8331B7EE68FD" /\
  sufixo_hash (str_of "password") <> str_of "1E4C9B93F3F0682250B6CF8331B7EE68FD".
Proof.
  split; [reflexivity|].
  split; intros H; apply (f_equal (@length _)) in H; vm_compute in H; discriminate.
Qed.

(** * Properties of the parsing of the response *)

(** The models of [splitlines], [split] and [int] on a few strings, with
    the values Python gives. *)
Example splitlines_exemplos :
  map splitlines [[]; [97]; [97; 10]; [10]; [97; 13; 10; 98]; [97; 13; 98];
                  [97; 10; 10; 98]; [97; 10; 13]; [97; 0x1F; 98]; [97; 0x2028; 98]]
  = [[]; [[97]]; [[97]]; [[]]; [[97]; [98]]; [[97]; [98]];
     [[97]; []; [98]]; [[97]; []]; [[97; 0x1F; 98]]; [[97]; [98]]].
Proof. reflexivity. Qed.

Example split_exemplos :
  map (split 58) [str_of ""; str_of "a:b"; str_of "a:b:c"; str_of ":"; str_of "ab"]
  = [[[]]; [str_of "a"; str_of "b"]; [str_of "a"; str_of "b"; str_of "c"];
     [[]; []]; [str_of "ab"]].
Proof. reflexivity. Qed.

Example int_exemplos :
  map (fun s => fst (int (fun _ => None) (str_of s) []))
    [" 5"; "+5"; "-5"; "1_0"; "0007"; "3730471";
     ""; "_1"; "1_"; "1__0"; "+ 5"; "5 5"; "many"]%string
  = [Retorna 5; Retorna 5; Retorna (-5); Retorna 10; Retorna 7; Retorna 3730471;
     Levanta ValueError; Levanta ValueError; Levanta ValueError; Levanta ValueError;
     Levanta ValueError; Levanta ValueError; Levanta ValueError].
Proof. vm_compute. reflexivity. Qed.

Lemma quebra_de_linha_spec c :
  quebra_de_linha c = true <->
  10 <= c <= 13 \/ 28 <= c <= 30 \/ c = 0x85 \/ c = 0x2028 \/ c = 0x2029.
Proof.
  unfold quebra_de_linha. rewrite !orb_true_iff, !entre_spec, !Z.eqb_eq. tauto.
Qed.

Lemma algarismo_nao_quebra c : algarismo c -> quebra_de_linha c = false.
Proof.
  unfold algarismo. intros Hc.
  destruct (quebra_de_linha c) eqn:E; [|reflexivity].
  apply quebra_de_linha_spec in E. lia.
Qed.

Lemma splitlines_sem_quebra c r :
  quebra_de_linha c = false ->
  splitlines (c :: r) =
    match splitlines r with
    | linha :: resto => (c :: linha) :: resto
    | [] => [[c]]
    end.
Proof.
  intros Hc. cbn [splitlines].
  destruct (Z.eqb_spec c 0x0D) as [->|_]; [discriminate Hc|].
  rewrite Hc. reflexivity.
Qed.

Lemma splitlines_linha l : sem_quebra l -> l <> [] -> splitlines l = [l].
Proof.
  induction 1 as [|c r Hc Hr IH]; intros Hne; [congruence|].
  rewrite (splitlines_sem_quebra c r Hc).
  destruct r as [|c' r']; [reflexivity|].
  rewrite IH by discriminate. reflexivity.
Qed.

Lemma splitlines_linha_sep l sep s :
  sem_quebra l -> fim_de_linha sep ->
  splitlines (l ++ sep ++ s) = l :: splitlines s.
Proof.
  intros Hl Hsep. induction Hl as [|c r Hc Hr IH].
  - destruct Hsep as [-> | ->]; reflexivity.
  - change ((c :: r) ++ sep ++ s) with (c :: (r ++ sep ++ s)).
    rewrite (splitlines_sem_quebra c _ Hc), IH. reflexivity.
Qed.

Lemma splitlines_junta sep linhas :
  fim_de_linha sep ->
  Forall (fun l => sem_quebra l /\ l <> []) linhas ->
  splitlines (junta sep linhas) = linhas.
Proof.
  intros Hsep. induction 1 as [|l r [Hl Hne] Hr IH]; [reflexivity|].
  destruct r as [|l' r'].
  - apply splitlines_linha; assumption.
  - change (junta sep (l :: l' :: r')) with (l ++ sep ++ junta sep (l' :: r')).
    rewrite (splitlines_linha_sep l sep _ Hl Hsep), IH. reflexivity.
Qed.

Lemma split_sem_separador sep a :
  Forall (fun c => c <> sep) a -> split sep a = [a].
Proof.
  induction 1 as [|c r Hc _ IH]; [reflexivity|].
  cbn [split]. destruct (Z.eqb_spec c sep); [contradiction|].
  rewrite IH. reflexivity.
Qed.

Lemma split_um_separador sep a b :
  Forall (fun c => c <> sep) a ->
  split sep (a ++ sep :: b) = a :: split sep b.
Proof.
  induction 1 as [|c r Hc _ IH].
  - cbn [app split]. rewrite Z.eqb_refl. reflexivity.
  - change ((c :: r) ++ sep :: b) with (c :: (r ++ sep :: b)).
    cbn [split]. destruct (Z.eqb_spec c sep); [contradiction|].
    rewrite IH. reflexivity.
Qed.

Lemma str_eqb_eq a b : str_eqb a b = true <-> a = b.
Proof.
  unfold str_eqb. destruct (list_eq_dec Z.eq_dec a b); split; congruence.
Qed.

Lemma algarismo_nao_espaco c : algarismo c -> espaco_int c = false.
Proof.
  unfold algarismo, espaco_int. intros Hc.
  destruct (Z.ltb_spec c 127); [|lia].
  destruct (entre 9 13 c) eqn:E; [apply entre_spec in E; lia|].
  destruct (Z.eqb_spec c 32); [lia | reflexivity].
Qed.

Lemma lstrip_algarismos s : Forall algarismo s -> lstrip s = s.
Proof.
  destruct 1 as [|c r Hc _]; [reflexivity|].
  cbn [lstrip]. rewrite (algarismo_nao_espaco c Hc). reflexivity.
Qed.

Lemma strip_algarismos s : Forall algarismo s -> strip s = s.
Proof.
  intros Hs. unfold strip.
  rewrite (lstrip_algarismos s Hs), lstrip_algarismos by (apply Forall_rev, Hs).
  apply rev_involutive.
Qed.

Section PropriedadesDoInt.

Variable unicode_decimal : codepoint -> option Z.

Lemma digito_int_algarismo c :
  algarismo c -> digito_int unicode_decimal c = Some (c - 48).
Proof.
  unfold algarismo, digito_int. intros Hc.
  destruct (Z.ltb_spec c 127); [|lia].
  assert (E : classe_numero c = true) by (apply entre_spec; lia).
  rewrite E. reflexivity.
Qed.

Lemma digitos_algarismos s :
  Forall algarismo s ->
  forall apos acc n, s <> [] \/ apos = true ->
  digitos unicode_decimal apos acc n s =
    Some (fold_left (fun a c => 10 * a + (c - 48)) s acc, (n + length s)%nat).
Proof.
  induction 1 as [|c r Hc _ IH]; intros apos acc n Hne.
  - destruct Hne as [Hne | ->]; [congruence|].
    cbn [digitos fold_left length]. rewrite Nat.add_0_r. reflexivity.
  - cbn [digitos fold_left length].
    destruct (Z.eqb_spec c 95) as [->|_]; [unfold algarismo in Hc; lia|].
    rewrite (digito_int_algarismo c Hc), IH by (right; reflexivity).
    rewrite Nat.add_succ_r. reflexivity.
Qed.

Lemma int_contagem_decimal s out :
  contagem_decimal s ->
  int unicode_decimal s out = (Retorna (valor_decimal s), out).
Proof.
  intros (Hne & Hd & Hlen). unfold int.
  rewrite (strip_algarismos s Hd).
  destruct s as [|c r]; [congruence|].
  assert (Hc : algarismo c) by (inversion Hd; assumption).
  destruct (Z.eqb_spec c 43) as [->|_]; [unfold algarismo in Hc; lia|].
  destruct (Z.eqb_spec c 45) as [->|_]; [unfold algarismo in Hc; lia|].
  rewrite (digitos_algarismos (c :: r) Hd) by (left; discriminate).
  rewrite Nat.add_0_l.
  destruct (Nat.ltb_spec int_max_str_digits (length (c :: r))); [lia|].
  unfold valor_decimal, Py.ret. rewrite Z.mul_1_l. reflexivity.
Qed.

End PropriedadesDoInt.

(** * Properties of the breach check *)

Lemma campo_sem_dois_pontos s : campo s -> Forall (fun c => c <> 58) s.
Proof. apply Forall_impl. intros c [H _]. exact H. Qed.

Lemma campo_sem_quebra s : campo s -> sem_quebra s.
Proof. apply Forall_impl. intros c [_ H]. exact H. Qed.

Lemma contagem_sem_dois_pontos s : contagem_decimal s -> Forall (fun c => c <> 58) s.
Proof.
  intros (_ & Hd & _). revert Hd. apply Forall_impl.
  unfold algarismo. intros c Hc. lia.
Qed.

Lemma contagem_sem_quebra s : contagem_decimal s -> sem_quebra s.
Proof.
  intros (_ & Hd & _). revert Hd. apply Forall_impl. exact algarismo_nao_quebra.
Qed.

Lemma split_linha_de par :
  par_bem_formado par -> split 58 (linha_de par) = [fst par; snd par].
Proof.
  intros [Hs Hc]. unfold linha_de. cbn [app].
  rewrite (split_um_separador 58 _ _ (campo_sem_dois_pontos _ Hs)).
  rewrite (split_sem_separador 58 _ (contagem_sem_dois_pontos _ Hc)). reflexivity.
Qed.

Lemma linha_de_bem_formada par :
  par_bem_formado par -> sem_quebra (linha_de par) /\ linha_de par <> [].
Proof.
  intros [Hs Hc]. unfold linha_de. split.
  - apply Forall_app. split; [exact (campo_sem_quebra _ Hs)|].
    apply Forall_cons; [reflexivity | exact (contagem_sem_quebra _ Hc)].
  - destruct (fst par); discriminate.
Qed.

Section PropriedadesDoVazamento.

Variable unicode_decimal : codepoint -> option Z.

(** The loop over well-formed lines stops at the first pair whose suffix
    is the one looked for. *)
Lemma percorre_pares sufixo pares out :
  Forall par_bem_formado pares ->
  percorre unicode_decimal sufixo (map linha_de pares) out =
    (Retorna
       match find (fun par => str_eqb (fst par) sufixo) pares with
       | Some par => Some (true, valor_decimal (snd par))
       | None => None
       end, out).
Proof.
  induction 1 as [|par r Hp _ IH]; [reflexivity|].
  cbn [map percorre find]. rewrite (split_linha_de par Hp).
  destruct (str_eqb (fst par) sufixo); [|exact IH].
  unfold Py.bind. rewrite (int_contagem_decimal unicode_decimal _ out (proj2 Hp)).
  reflexivity.
Qed.

(** C5.  When the endpoint answers 200 with a body of SUFFIX:COUNT lines,
    the breach check returns [(True, n)] for the first pair whose suffix is
    the computed suffix, [n] being the number its count writes, and
    [(False, 0)] when no pair has that suffix; it prints nothing. *)
Theorem vazamento_corpo_bem_formado (net : rede) (senha : str) (dados : bytes)
    (sep : str) (pares : list (str * str)) (out : list saida) :
  utf8 senha = Some dados ->
  fim_de_linha sep ->
  Forall par_bem_formado pares ->
  net (url_range ++ prefixo_hash dados) =
    Responde {| status_code := 200; text := corpo_de sep pares |} ->
  verificar_vazamento_pwned unicode_decimal net senha out =
    (Retorna (procura (sufixo_hash dados) pares), out).
Proof.
  intros Hu Hsep Hp Hnet.
  unfold verificar_vazamento_pwned, consulta, Py.bind, Py.except_RequestException,
    encode_utf8, requests_get.
  rewrite Hu. unfold Py.ret at 1. rewrite Hnet. unfold Py.ret at 1.
  cbn [status_code text]. change (negb (200 =? 200)) with false. cbv iota.
  unfold corpo_de. rewrite splitlines_junta.
  - rewrite (percorre_pares _ pares out Hp). unfold procura.
    destruct (find _ pares); reflexivity.
  - exact Hsep.
  - apply Forall_map. revert Hp. apply Forall_impl. exact linha_de_bem_formada.
Qed.

(** X8.  The breach check asks the network for one URL only, the range
    of the prefix: two networks that agree there give the same result. *)
Lemma vazamento_so_consulta_o_prefixo (net net' : rede) (senha : str) (dados : bytes)
    (out : list saida) :
  utf8 senha = Some dados ->
  net (url_range ++ prefixo_hash dados) = net' (url_range ++ prefixo_hash dados) ->
  verificar_vazamento_pwned unicode_decimal net senha out =
  verificar_vazamento_pwned unicode_decimal net' senha out.
Proof.
  intros Hu Hnet.
  unfold verificar_vazamento_pwned, consulta, Py.bind, Py.except_RequestException,
    encode_utf8, requests_get.
  rewrite Hu. unfold Py.ret at 1 4. rewrite Hnet. reflexivity.
Qed.

(** X6.  A status other than 200: the warning is printed and
    [(False, 0)] returned. *)
Lemma vazamento_status_diferente_de_200 (net : rede) (senha : str) (dados : bytes)
    (r : Response) (out : list saida) :
  utf8 senha = Some dados ->
  net (url_range ++ prefixo_hash dados) = Responde r ->
  status_code r <> 200 ->
  verificar_vazamento_pwned unicode_decimal net senha out =
    (Retorna (false, 0), out ++ [AvisoStatus (status_code r)]).
Proof.
  intros Hu Hnet Hs.
  unfold verificar_vazamento_pwned, consulta, Py.bind, Py.except_RequestException,
    encode_utf8, requests_get.
  rewrite Hu. unfold Py.ret at 1. rewrite Hnet. unfold Py.ret at 1.
  destruct (Z.eqb_spec (status_code r) 200); [contradiction|]. reflexivity.
Qed.

(** X7.  A [requests.RequestException]: the warning is printed with its
    message and [(False, 0)] returned. *)
Lemma vazamento_falha_de_transporte (net : rede) (senha : str) (dados : bytes)
    (e : str) (out : list saida) :
  utf8 senha = Some dados ->
  net (url_range ++ prefixo_hash dados) = Falha e ->
  verificar_vazamento_pwned unicode_decimal net senha out =
    (Retorna (false, 0), out ++ [AvisoConexao e]).
Proof.
  intros Hu Hnet.
  unfold verificar_vazamento_pwned, consulta, Py.bind, Py.except_RequestException,
    encode_utf8, requests_get.
  rewrite Hu. unfold Py.ret at 1. rewrite Hnet. reflexivity.
Qed.


(** C2 fails on the program.  With the answer 200 and the body "<html>",
    as a captive portal gives, the breach check on "password" raises
    [ValueError] to its caller and prints no warning. *)
Theorem vazamento_corpo_malformado_levanta :
  verificar_vazamento_pwned unicode_decimal
    (fun _ => Responde {| status_code := 200; text := str_of "<html>" |})
    (str_of "password") [] = (Levanta ValueError, []).
Proof. vm_compute. reflexivity. Qed.

(** A count that is no number raises [ValueError] as well. *)
Lemma vazamento_contagem_malformada_levanta :
  verificar_vazamento_pwned unicode_decimal
    (fun _ => Responde {| status_code := 200;
                          text := str_of "1E4C9B93F3F0682250B6CF8331B7EE68FD8:many" |})
    (str_of "password") [] = (Levanta ValueError, []).
Proof. vm_compute. reflexivity. Qed.

(** A lone surrogate in the password raises [UnicodeEncodeError] before
    any request is made. *)
Lemma vazamento_substituto_levanta (net : rede) (out : list saida) :
  verificar_vazamento_pwned unicode_decimal net [0xDC80] out =
    (Levanta UnicodeEncodeError, out).
Proof. reflexivity. Qed.

End PropriedadesDoVazamento.

(** ** The digest the breach check uses *)

Lemma hex_maiusculo_campo (s : str) : Forall hex_maiusculo s -> campo s.
Proof.
  apply Forall_impl. intros c Hc. unfold hex_maiusculo in Hc.
  split; [lia|].
  destruct (quebra_de_linha c) eqn:E; [|reflexivity].
  apply quebra_de_linha_spec in E. lia.
Qed.

(** C7, as the program has it.  For a password that is Unicode text (no
    lone surrogate), the breach check encodes it to UTF-8 (RFC 3629) and
    its digest is the SHA-1 (FIPS 180-4) of these octets in hexadecimal
    and upper case: 40 characters of "0123456789ABCDEF".  The prefix is
    its first 5 characters and the suffix the other 35, and prefix
    followed by suffix is the digest.  These are the two the check uses:
    when the endpoint, asked at the URL of the prefix, lists the suffix
    with the count 1, the check returns [(True, 1)]. *)
Theorem digest_em_prefixo_e_sufixo (senha : str) (out : list saida) :
  codificavel senha ->
  let D := digest_da_norma senha in
  encode_utf8 senha out = (Retorna (RFC3629.encode senha), out) /\
  sha1_senha (RFC3629.encode senha) = D /\
  length D = 40%nat /\
  Forall hex_maiusculo D /\
  prefixo_hash (RFC3629.encode senha) = firstn 5 D /\
  length (firstn 5 D) = 5%nat /\
  sufixo_hash (RFC3629.encode senha) = skipn 5 D /\
  length (skipn 5 D) = 35%nat /\
  firstn 5 D ++ skipn 5 D = D /\
  forall unicode_decimal net,
    net (url_range ++ firstn 5 D)
      = Responde {| status_code := 200; text := skipn 5 D ++ str_of ":1" |} ->
    verificar_vazamento_pwned unicode_decimal net senha out = (Retorna (true, 1), out).
Proof.
  intros Hs D.
  pose proof (sha1_senha_norma senha Hs) as ED. fold D in ED.
  pose proof (length_sha1_senha (RFC3629.encode senha)) as L. rewrite ED in L.
  pose proof (sha1_senha_maiusculo (RFC3629.encode senha)) as HX. rewrite ED in HX.
  assert (Eu : encode_utf8 senha out = (Retorna (RFC3629.encode senha), out))
    by (unfold encode_utf8; rewrite (utf8_encode senha Hs); reflexivity).
  split; [exact Eu|].
  split; [exact ED|].
  split; [exact L|].
  split; [exact HX|].
  split; [unfold prefixo_hash; rewrite ED; reflexivity|].
  split; [rewrite length_firstn, L; reflexivity|].
  split; [unfold sufixo_hash; rewrite ED; reflexivity|].
  split; [rewrite length_skipn, L; reflexivity|].
  split; [apply firstn_skipn|].
  intros unicode_decimal net Hnet.
  unfold verificar_vazamento_pwned, consulta, Py.bind, Py.except_RequestException,
    requests_get.
  rewrite Eu. unfold prefixo_hash, sufixo_hash. rewrite ED, Hnet.
  unfold Py.ret at 1. cbn [status_code text].
  change (negb (200 =? 200)) with false. cbv iota.
  assert (Hp : Forall par_bem_formado [(skipn 5 D, str_of "1")]).
  { constructor; [|constructor]. split.
    - apply hex_maiusculo_campo. cbn [fst].
      rewrite <- (firstn_skipn 5 D) in HX. apply Forall_app in HX. exact (proj2 HX).
    - cbn [snd]. split; [discriminate|].
      split; [repeat constructor; unfold algarismo; simpl; lia|].
      apply Nat.leb_le. reflexivity. }
  change (skipn 5 D ++ str_of ":1") with (corpo_de [10] [(skipn 5 D, str_of "1")]).
  unfold corpo_de. rewrite splitlines_junta.
  - rewrite (percorre_pares unicode_decimal _ _ out Hp). cbn [find fst snd].
    rewrite (proj2 (str_eqb_eq _ _) eq_refl). reflexivity.
  - left. reflexivity.
  - apply Forall_map. revert Hp. apply Forall_impl. exact linha_de_bem_formada.
Qed.

Lemma digest_em_prefixo_e_sufixo_witness :
  digest_da_norma (str_of "password") = str_of "5BAA61E4C9B93F3F0682250B6CF8331B7EE68FD8" /\
  let D := digest_da_norma (str_of "password") in
  encode_utf8 (str_of "password") [] = (Retorna (RFC3629.encode (str_of "password")), []) /\
  sha1_senha (RFC3629.encode (str_of "password")) = D /\
  length D = 40%nat /\
  Forall hex_maiusculo D /\
  prefixo_hash (RFC3629.encode (str_of "password")) = firstn 5 D /\
  length (firstn 5 D) = 5%nat /\
  sufixo_hash (RFC3629.encode (str_of "password")) = skipn 5 D /\
  length (skipn 5 D) = 35%nat /\
  firstn 5 D ++ skipn 5 D = D /\
  forall unicode_decimal net,
    net (url_range ++ firstn 5 D)
      = Responde {| status_code := 200; text := skipn 5 D ++ str_of ":1" |} ->
    verificar_vazamento_pwned unicode_decimal net (str_of "password") []
      = (Retorna (true, 1), []).
Proof.
  split; [vm_compute; reflexivity|].
  apply (digest_em_prefixo_e_sufixo (str_of "password") []).
  unfold codificavel, escalar.
  repeat (apply Forall_cons; [simpl; lia|]). apply Forall_nil.
Defined.

(** C7 as the specification words it fails: a password that holds a lone
    surrogate has no UTF-8 encoding, and the breach check raises
    [UnicodeEncodeError] on it before any digest is computed. *)
Lemma substituto_nao_tem_digest :
  encode_utf8 [0xDC80] [] = (Levanta UnicodeEncodeError, []) /\
  verificar_vazamento_pwned (fun _ => None) (fun _ => Falha []) [0xDC80] []
    = (Levanta UnicodeEncodeError, []).
Proof. split; reflexivity. Qed.

(** A pair of literals is well formed. *)
Ltac bem_formado :=
  unfold par_bem_formado, contagem_decimal;
  split;
  [ unfold campo; lazy;
    repeat (apply Forall_cons; [split; [discriminate | reflexivity]|]);
    apply Forall_nil
  | split; [lazy; discriminate|];
    split;
    [ unfold algarismo; lazy;
      repeat (apply Forall_cons; [split; discriminate|]); apply Forall_nil
    | apply Nat.leb_le; vm_compute; reflexivity ] ].

Lemma vazamento_corpo_bem_formado_witness :
  verificar_vazamento_pwned (fun _ => None)
    (fun _ => Responde {| status_code := 200;
       text := corpo_de [13; 10]
                 [(str_of "1D72CD07550416C216D8AD296BF5C0AE8E0", str_of "10");
                  (str_of "1E4C9B93F3F0682250B6CF8331B7EE68FD8", str_of "3730471");
                  (str_of "1F2B668E8AABEF1C59E9EC6F82E3F3CD786", str_of "2")] |})
    (str_of "password") [] = (Retorna (true, 3730471), []).
Proof.
  refine (eq_trans
    (vazamento_corpo_bem_formado (fun _ => None) _ (str_of "password")
       (str_of "password") [13; 10]
       [(str_of "1D72CD07550416C216D8AD296BF5C0AE8E0", str_of "10");
        (str_of "1E4C9B93F3F0682250B6CF8331B7EE68FD8", str_of "3730471");
        (str_of "1F2B668E8AABEF1C59E9EC6F82E3F3CD786", str_of "2")]
       [] _ _ _ _) _).
  - reflexivity.
  - right; reflexivity.
  - repeat (apply Forall_cons; [bem_formado|]). apply Forall_nil.
  - reflexivity.
  - vm_compute. reflexivity.
Defined.

(** * Further properties of the scorer *)

Lemma re_search_Permutation classe (s t : str) :
  Permutation s t -> re_search classe s = None -> re_search classe t = None.
Proof.
  unfold re_search. intros HP Hs.
  destruct (find classe t) as [c|] eqn:E; [|reflexivity].
  apply find_some in E as [Hin Hc].
  apply (Permutation_in _ (Permutation_sym HP)) in Hin.
  rewrite (find_none _ _ Hs c Hin) in Hc. discriminate.
Qed.

Lemma verifica_classe_Permutation classe pontos sug (s t : str) l :
  Permutation s t ->
  verifica_classe classe pontos sug s l = verifica_classe classe pontos sug t l.
Proof.
  intros HP. unfold verifica_classe.
  destruct (re_search classe s) eqn:Es, (re_search classe t) eqn:Et; try reflexivity.
  - rewrite (re_search_Permutation classe t s (Permutation_sym HP) Et) in Es. discriminate.
  - rewrite (re_search_Permutation classe s t HP Es) in Et. discriminate.
Qed.

Lemma nivel_de_monotono p q : p <= q -> posto (nivel_de p) <= posto (nivel_de q).
Proof.
  intros H. unfold nivel_de.
  destruct (Z.ltb_spec p 2), (Z.ltb_spec q 2); simpl; try lia;
  destruct (Z.ltb_spec p 4), (Z.ltb_spec q 4); simpl; try lia;
  destruct (Z.ltb_spec p 6), (Z.ltb_spec q 6); simpl; lia.
Qed.

Lemma pontos_de_app classe (P : codepoint -> Prop) k (s t : str) p p' :
  (forall c, classe c = true <-> P c) ->
  0 <= k ->
  pontos_de P k s p -> pontos_de P k (s ++ t) p' -> p <= p'.
Proof.
  intros HP Hk [H1 H0] [H1' H0'].
  destruct (Exists_dec_classe classe P s HP) as [HE|HN].
  - rewrite (H1 HE), (H1' (proj2 (Exists_app P s t) (or_introl HE))). lia.
  - rewrite (H0 HN).
    destruct (Exists_dec_classe classe P (s ++ t) HP) as [HE'|HN'];
      [rewrite (H1' HE') | rewrite (H0' HN')]; lia.
Qed.

Section MaisPropriedadesDoScorer.

Variable unicode_isalnum : codepoint -> bool.

(** The total as a sum of the five terms, each with its conditions. *)
Lemma pontuacao_analisa (senha : str) :
  let n := Z.of_nat (length senha) in
  exists pc pm pM pn pe : Z,
    pontuacao (analisa unicode_isalnum senha) = pc + pm + pM + pn + pe /\
    ((n < 8 -> pc = -5) /\ (8 <= n < 12 -> pc = 1) /\ (12 <= n -> pc = 3)) /\
    pontos_de letra_minuscula 1 senha pm /\
    pontos_de letra_maiuscula 1 senha pM /\
    pontos_de algarismo 1 senha pn /\
    pontos_de (nao_alfanumerico unicode_isalnum) 2 senha pe.
Proof.
  intros n. unfold analisa.
  set (l0 := {| pontuacao := 0; sugestoes := [] |}).
  destruct (pontuacao_verifica_comprimento senha l0) as (pc & H1 & H2 & H3 & Ec).
  set (l1 := verifica_comprimento senha l0) in *.
  destruct (pontuacao_verifica_classe classe_minuscula letra_minuscula 1 SugMinuscula
              senha l1 (entre_spec 97 122)) as (pm & Hm & Em).
  set (l2 := verifica_classe classe_minuscula 1 SugMinuscula senha l1) in *.
  destruct (pontuacao_verifica_classe classe_maiuscula letra_maiuscula 1 SugMaiuscula
              senha l2 (entre_spec 65 90)) as (pM & HM & EM).
  set (l3 := verifica_classe classe_maiuscula 1 SugMaiuscula senha l2) in *.
  destruct (pontuacao_verifica_classe classe_numero algarismo 1 SugNumero
              senha l3 (entre_spec 48 57)) as (pn & Hn & En).
  set (l4 := verifica_classe classe_numero 1 SugNumero senha l3) in *.
  destruct (pontuacao_verifica_classe (classe_especial unicode_isalnum)
              (nao_alfanumerico unicode_isalnum) 2 SugEspecial
              senha l4 (classe_especial_spec unicode_isalnum)) as (pe & He & Ee).
  exists pc, pm, pM, pn, pe.
  split; [rewrite Ee, En, EM, Em, Ec; simpl; lia|].
  split; [auto|]. repeat (split; [assumption|]). assumption.
Qed.

Ltac casos_classe classe P HP senha :=
  let HE := fresh "HE" in
  let c := fresh "c" in
  let E := fresh "E" in
  destruct (Exists_dec_classe classe P senha HP) as [HE|HE];
  [ destruct (re_search_Some classe P senha HP HE) as [c E]
  | pose proof (re_search_None classe P senha HP HE) as E ];
  rewrite E.

Ltac casos_da_senha senha :=
  unfold verifica_comprimento;
  destruct (Z.ltb_spec (Z.of_nat (length senha)) 8);
  [| destruct (Z.ltb_spec (Z.of_nat (length senha)) 12)];
  unfold verifica_classe;
  casos_classe classe_minuscula letra_minuscula (entre_spec 97 122) senha;
  casos_classe classe_maiuscula letra_maiuscula (entre_spec 65 90) senha;
  casos_classe classe_numero algarismo (entre_spec 48 57) senha;
  casos_classe (classe_especial unicode_isalnum) (nao_alfanumerico unicode_isalnum)
    (classe_especial_spec unicode_isalnum) senha.

(** X1.  The total lies in a band fixed by the length: from -5 to 0 for
    fewer than 8 characters, from 1 to 6 for 8 to 11, from 3 to 8 for 12
    or more; so it is never below -5 nor above 8. *)
Theorem pontuacao_por_faixa_de_comprimento (senha : str) :
  let n := Z.of_nat (length senha) in
  let p := pontuacao (analisa unicode_isalnum senha) in
  (n < 8 -> -5 <= p <= 0) /\
  (8 <= n < 12 -> 1 <= p <= 6) /\
  (12 <= n -> 3 <= p <= 8) /\
  -5 <= p <= 8.
Proof.
  intros n p. subst n p. unfold analisa.
  casos_da_senha senha; simpl; lia.
Qed.

(** X2.  Characters added at the end of a password never lower its total
    nor its level. *)
Theorem acrescentar_nao_enfraquece (senha mais : str) (out : list saida) :
  exists nv sug nv' sug',
    verificar_forca_senha unicode_isalnum senha out = (Retorna (nv, sug), out) /\
    verificar_forca_senha unicode_isalnum (senha ++ mais) out = (Retorna (nv', sug'), out) /\
    pontuacao (analisa unicode_isalnum senha)
      <= pontuacao (analisa unicode_isalnum (senha ++ mais)) /\
    posto nv <= posto nv'.
Proof.
  assert (H : pontuacao (analisa unicode_isalnum senha)
              <= pontuacao (analisa unicode_isalnum (senha ++ mais))).
  { destruct (pontuacao_analisa senha) as (pc & pm & pM & pn & pe & -> & Hc & Hm & HM & Hn & He).
    destruct (pontuacao_analisa (senha ++ mais))
      as (pc' & pm' & pM' & pn' & pe' & -> & Hc' & Hm' & HM' & Hn' & He').
    pose proof (pontos_de_app _ _ 1 senha mais pm pm' (entre_spec 97 122) ltac:(lia) Hm Hm').
    pose proof (pontos_de_app _ _ 1 senha mais pM pM' (entre_spec 65 90) ltac:(lia) HM HM').
    pose proof (pontos_de_app _ _ 1 senha mais pn pn' (entre_spec 48 57) ltac:(lia) Hn Hn').
    pose proof (pontos_de_app _ _ 2 senha mais pe pe'
                  (classe_especial_spec unicode_isalnum) ltac:(lia) He He').
    rewrite length_app, Nat2Z.inj_add in Hc'.
    assert (pc <= pc') by lia. lia. }
  unfold verificar_forca_senha, Py.ret.
  do 4 eexists. split; [reflexivity|]. split; [reflexivity|].
  split; [exact H | apply nivel_de_monotono, H].
Qed.

(** X3.  The result depends on the characters of the password, not on
    their order: two passwords that are permutations of each other get
    the same total, the same level and the same suggestions. *)
Theorem ordem_dos_caracteres_nao_importa (senha outra : str) (out : list saida) :
  Permutation senha outra ->
  analisa unicode_isalnum senha = analisa unicode_isalnum outra /\
  verificar_forca_senha unicode_isalnum senha out =
  verificar_forca_senha unicode_isalnum outra out.
Proof.
  intros HP.
  assert (E : analisa unicode_isalnum senha = analisa unicode_isalnum outra).
  { unfold analisa.
    rewrite (verifica_classe_Permutation (classe_especial unicode_isalnum) 2 _ _ _ _ HP).
    rewrite (verifica_classe_Permutation classe_numero 1 _ _ _ _ HP).
    rewrite (verifica_classe_Permutation classe_maiuscula 1 _ _ _ _ HP).
    rewrite (verifica_classe_Permutation classe_minuscula 1 _ _ _ _ HP).
    unfold verifica_comprimento. rewrite (Permutation_length HP). reflexivity. }
  split; [exact E|]. unfold verificar_forca_senha. rewrite E. reflexivity.
Qed.

(** X4.  There are never more than five suggestions, and there is none
    exactly when the password has 12 characters or more and a character
    of each of the four classes; a password with no suggestion is Forte. *)
Theorem sem_sugestoes_sse_completa (senha : str) :
  let l := analisa unicode_isalnum senha in
  (length (sugestoes l) <= 5)%nat /\
  (sugestoes l = [] <->
     12 <= Z.of_nat (length senha) /\
     Exists letra_minuscula senha /\ Exists letra_maiuscula senha /\
     Exists algarismo senha /\ Exists (nao_alfanumerico unicode_isalnum) senha) /\
  (sugestoes l = [] -> nivel_de (pontuacao l) = Forte).
Proof.
  intros l. subst l. unfold analisa.
  casos_da_senha senha; simpl;
    (split; [lia|]);
    (split;
     [ split; intros Hs;
       first [ discriminate Hs | tauto | exfalso; lia | exfalso; tauto ]
     | intros Hs; first [ discriminate Hs | reflexivity ] ]).
Qed.

(** X5.  The level is Forte exactly in two cases: from 8 to 11 characters
    with all four classes present; 12 characters or more with either a
    non-alphanumeric character and one more class, or a lowercase letter,
    an uppercase letter and a digit. *)
Theorem forte_sse (senha : str) :
  let n := Z.of_nat (length senha) in
  let min := Exists letra_minuscula senha in
  let mai := Exists letra_maiuscula senha in
  let num := Exists algarismo senha in
  let esp := Exists (nao_alfanumerico unicode_isalnum) senha in
  nivel_de (pontuacao (analisa unicode_isalnum senha)) = Forte <->
  (8 <= n < 12 /\ min /\ mai /\ num /\ esp) \/
  (12 <= n /\ ((esp /\ (min \/ mai \/ num)) \/ (min /\ mai /\ num))).
Proof.
  intros n min mai num esp. subst n min mai num esp. unfold analisa.
  casos_da_senha senha; simpl;
    match goal with
    | |- context [nivel_de ?p] =>
        let v := eval vm_compute in (nivel_de p) in change (nivel_de p) with v
    end;
    (split; intros Hforte;
     [ first [ discriminate Hforte
             | left; split; [lia | tauto]
             | right; split; [lia | tauto] ]
     | first [ reflexivity
             | exfalso; destruct Hforte as [[Hn Hr]|[Hn Hr]]; first [lia | tauto] ] ]).
Qed.

Lemma ascii_tem_classe (c : codepoint) :
  0 <= c < 128 ->
  letra_minuscula c \/ letra_maiuscula c \/ algarismo c \/
  nao_alfanumerico unicode_isalnum c.
Proof.
  intros Hc. unfold nao_alfanumerico, isalnum, ascii_isalnum.
  destruct (Z.ltb_spec c 128); [|lia].
  destruct (classe_minuscula c) eqn:Em; [left; apply entre_spec, Em|].
  destruct (classe_maiuscula c) eqn:EM; [right; left; apply entre_spec, EM|].
  destruct (classe_numero c) eqn:En; [right; right; left; apply entre_spec, En|].
  right; right; right. reflexivity.
Qed.

(** X20.  A password of 8 characters or more, all of them ASCII, totals
    at least 2 and is never Muito Fraca: each ASCII character is in one of
    the four classes. *)
Theorem ascii_de_oito_nao_e_muito_fraca (senha : str) :
  8 <= Z.of_nat (length senha) ->
  Forall (fun c => 0 <= c < 128) senha ->
  2 <= pontuacao (analisa unicode_isalnum senha) /\
  nivel_de (pontuacao (analisa unicode_isalnum senha)) <> MuitoFraca.
Proof.
  intros Hn Ha.
  assert (Hcl : Exists letra_minuscula senha \/ Exists letra_maiuscula senha \/
                Exists algarismo senha \/ Exists (nao_alfanumerico unicode_isalnum) senha).
  { destruct Ha as [|c r Hc _]; [simpl in Hn; lia|].
    destruct (ascii_tem_classe c Hc) as [H|[H|[H|H]]];
      [left | right; left | right; right; left | right; right; right];
      apply Exists_cons_hd, H. }
  assert (Hp : 2 <= pontuacao (analisa unicode_isalnum senha)).
  { unfold analisa. casos_da_senha senha; simpl; try lia; exfalso; tauto. }
  split; [exact Hp|].
  unfold nivel_de. destruct (Z.ltb_spec (pontuacao (analisa unicode_isalnum senha)) 2); [lia|].
  destruct (_ <? 4); [discriminate|]. destruct (_ <? 6); discriminate.
Qed.

End MaisPropriedadesDoScorer.

(** * Further properties of the breach check *)

Lemma utf8_codepoint_Some c b : utf8_codepoint c = Some b -> escalar c.
Proof.
  unfold utf8_codepoint, escalar.
  destruct (Z.ltb_spec c 0); [discriminate|].
  destruct (Z.ltb_spec c 0x80); [intros _; lia|].
  destruct (Z.ltb_spec c 0x800); [intros _; lia|].
  destruct (Z.ltb_spec c 0x10000).
  - destruct (substituto c) eqn:E; [discriminate|]. intros _.
    split; [lia|]. intros Hs. apply entre_spec in Hs.
    unfold substituto in E. congruence.
  - destruct (Z.ltb_spec c 0x110000); [intros _; lia | discriminate].
Qed.

Lemma utf8_Some_codificavel senha dados : utf8 senha = Some dados -> codificavel senha.
Proof.
  revert dados. induction senha as [|c r IH]; intros dados H; [constructor|].
  cbn [utf8] in H.
  destruct (utf8_codepoint c) as [b|] eqn:Ec; [|discriminate].
  destruct (utf8 r) as [bs|] eqn:Er; [|discriminate].
  constructor; [exact (utf8_codepoint_Some c b Ec) | exact (IH bs eq_refl)].
Qed.

Lemma splitlines_junta_sep sep linhas resto :
  fim_de_linha sep -> Forall sem_quebra linhas -> linhas <> [] ->
  splitlines (junta sep linhas ++ sep ++ resto) = linhas ++ splitlines resto.
Proof.
  intros Hsep. induction 1 as [|l r Hl Hr IH]; intros Hne; [congruence|].
  destruct r as [|l' r'].
  - cbn [junta app]. apply splitlines_linha_sep; assumption.
  - change (junta sep (l :: l' :: r')) with (l ++ sep ++ junta sep (l' :: r')).
    rewrite <- !app_assoc.
    rewrite (splitlines_linha_sep l sep _ Hl Hsep), IH by discriminate. reflexivity.
Qed.

Section MaisPropriedadesDoVazamento.

Variable unicode_decimal : codepoint -> option Z.

Lemma int_resultado s out :
  int unicode_decimal s out = (Levanta ValueError, out) \/
  exists n, int unicode_decimal s out = (Retorna n, out).
Proof.
  unfold int.
  destruct (match strip s with
            | [] => (1, strip s)
            | c :: r => if c =? 43 then (1, r) else if c =? 45 then (-1, r) else (1, strip s)
            end) as [sinal corpo].
  destruct (digitos unicode_decimal false 0 0 corpo) as [[v n]|]; [|left; reflexivity].
  destruct (int_max_str_digits <? n)%nat; [left; reflexivity | right; eexists; reflexivity].
Qed.

(** The loop prints nothing; it raises [ValueError], runs to its end, or
    returns [True] with a count. *)
Lemma percorre_resultado sufixo linhas out :
  percorre unicode_decimal sufixo linhas out = (Levanta ValueError, out) \/
  percorre unicode_decimal sufixo linhas out = (Retorna None, out) \/
  exists n, percorre unicode_decimal sufixo linhas out = (Retorna (Some (true, n)), out).
Proof.
  induction linhas as [|linha resto IH]; [right; left; reflexivity|].
  cbn [percorre].
  destruct (split 58 linha) as [|a [|b [|c d]]]; try (left; reflexivity).
  destruct (str_eqb a sufixo); [|exact IH].
  unfold Py.bind.
  destruct (int_resultado b out) as [E|[n E]]; rewrite E;
    [left; reflexivity | right; right; eexists; reflexivity].
Qed.

(** The loop over well-formed pairs followed by any lines: the first pair
    with the suffix ends it; with none, the lines after are looked at. *)
Lemma percorre_pares_e_resto sufixo pares resto out :
  Forall par_bem_formado pares ->
  percorre unicode_decimal sufixo (map linha_de pares ++ resto) out =
    match find (fun par => str_eqb (fst par) sufixo) pares with
    | Some par => (Retorna (Some (true, valor_decimal (snd par))), out)
    | None => percorre unicode_decimal sufixo resto out
    end.
Proof.
  induction 1 as [|par r Hp _ IH]; [reflexivity|].
  cbn [map app percorre find]. rewrite (split_linha_de par Hp).
  destruct (str_eqb (fst par) sufixo); [|exact IH].
  unfold Py.bind. rewrite (int_contagem_decimal unicode_decimal _ out (proj2 Hp)).
  reflexivity.
Qed.

(** Every run of the breach check is one of five. *)
Lemma vazamento_casos (net : rede) (senha : str) (out : list saida) :
  let r := verificar_vazamento_pwned unicode_decimal net senha out in
  (utf8 senha = None /\ r = (Levanta UnicodeEncodeError, out)) \/
  (exists dados, utf8 senha = Some dados /\
     ((exists a, r = (Retorna (false, 0), out ++ [a])) \/
      r = (Levanta ValueError, out) \/
      r = (Retorna (false, 0), out) \/
      exists n, r = (Retorna (true, n), out))).
Proof.
  intros r. subst r.
  unfold verificar_vazamento_pwned, consulta, Py.bind, Py.except_RequestException,
    encode_utf8, requests_get, Py.ret, Py.raise, Py.print.
  destruct (utf8 senha) as [dados|]; [right | left; split; reflexivity].
  exists dados. split; [reflexivity|]. cbv beta iota.
  destruct (net (url_range ++ prefixo_hash dados)) as [resp|e];
    [|left; eexists; reflexivity].
  cbv beta iota.
  destruct (negb (status_code resp =? 200)); [left; eexists; reflexivity|].
  right.
  destruct (percorre_resultado (sufixo_hash dados) (splitlines (text resp)) out)
    as [E|[E|[n E]]]; rewrite E;
    [left; reflexivity | right; left; reflexivity | right; right; eexists; reflexivity].
Qed.

(** X9.  The breach check raises [UnicodeEncodeError] exactly when the
    password is not Unicode text (a lone surrogate); it has then printed
    nothing, whatever the network. *)
Theorem vazamento_UnicodeEncodeError_sse (net : rede) (senha : str) (out : list saida) :
  (fst (verificar_vazamento_pwned unicode_decimal net senha out) = Levanta UnicodeEncodeError
   <-> ~ codificavel senha) /\
  (~ codificavel senha ->
   verificar_vazamento_pwned unicode_decimal net senha out = (Levanta UnicodeEncodeError, out)).
Proof.
  destruct (vazamento_casos net senha out)
    as [[Hu E]|(dados & Hu & [[a E]|[E|[E|[n E]]]])].
  - assert (~ codificavel senha).
    { intros Hc. destruct (utf8_codificavel senha Hc). congruence. }
    rewrite E. split; [tauto | trivial].
  - pose proof (utf8_Some_codificavel senha dados Hu). rewrite E.
    split; [split; [discriminate | contradiction] | contradiction].
  - pose proof (utf8_Some_codificavel senha dados Hu). rewrite E.
    split; [split; [discriminate | contradiction] | contradiction].
  - pose proof (utf8_Some_codificavel senha dados Hu). rewrite E.
    split; [split; [discriminate | contradiction] | contradiction].
  - pose proof (utf8_Some_codificavel senha dados Hu). rewrite E.
    split; [split; [discriminate | contradiction] | contradiction].
Qed.

(** X10.  No [requests.RequestException] ever leaves the breach check:
    what it raises to its caller is [ValueError] or [UnicodeEncodeError],
    and it has then printed nothing. *)
Theorem vazamento_nunca_propaga_RequestException (net : rede) (senha : str)
    (out : list saida) (e : excecao) (out' : list saida) :
  verificar_vazamento_pwned unicode_decimal net senha out = (Levanta e, out') ->
  (e = ValueError \/ e = UnicodeEncodeError) /\ out' = out.
Proof.
  destruct (vazamento_casos net senha out)
    as [[Hu E]|(dados & Hu & [[a E]|[E|[E|[n E]]]])];
    rewrite E; intros H; inversion H; subst; auto.
Qed.

(** X11.  The breach check prints at most one line; when it prints one,
    it returns [(False, 0)]; and whenever it returns [False] the count
    is 0. *)
Theorem vazamento_saida_e_contagem (net : rede) (senha : str) (out : list saida) :
  exists r out',
    verificar_vazamento_pwned unicode_decimal net senha out = (r, out') /\
    (out' = out \/ (exists a, out' = out ++ [a]) /\ r = Retorna (false, 0)) /\
    (forall n, r = Retorna (false, n) -> n = 0).
Proof.
  destruct (vazamento_casos net senha out)
    as [[Hu E]|(dados & Hu & [[a E]|[E|[E|[n E]]]])];
    rewrite E; eexists; eexists; (split; [reflexivity|]);
    (split; [first [left; reflexivity | right; split; [eexists; reflexivity | reflexivity]]
            | intros m Hm; first [discriminate Hm | inversion Hm; reflexivity]]).
Qed.

(** X12.  The lines are looked at one by one: once a well-formed line has
    the suffix, the check returns [True] with its count, whatever comes
    after it in the body, malformed lines included. *)
Theorem vazamento_para_na_primeira_ocorrencia (net : rede) (senha : str) (dados : bytes)
    (sep : str) (pares : list (str * str)) (par : str * str) (resto : str)
    (out : list saida) :
  utf8 senha = Some dados ->
  fim_de_linha sep ->
  Forall par_bem_formado pares ->
  find (fun p => str_eqb (fst p) (sufixo_hash dados)) pares = Some par ->
  net (url_range ++ prefixo_hash dados) =
    Responde {| status_code := 200; text := corpo_de sep pares ++ sep ++ resto |} ->
  verificar_vazamento_pwned unicode_decimal net senha out =
    (Retorna (true, valor_decimal (snd par)), out).
Proof.
  intros Hu Hsep Hp Hf Hnet.
  unfold verificar_vazamento_pwned, consulta, Py.bind, Py.except_RequestException,
    encode_utf8, requests_get.
  rewrite Hu. unfold Py.ret at 1. rewrite Hnet. unfold Py.ret at 1.
  cbn [status_code text]. change (negb (200 =? 200)) with false. cbv iota.
  unfold corpo_de. rewrite splitlines_junta_sep.
  - rewrite (percorre_pares_e_resto _ pares _ out Hp), Hf. reflexivity.
  - exact Hsep.
  - apply Forall_map. revert Hp. apply Forall_impl.
    intros p Hpar. exact (proj1 (linha_de_bem_formada p Hpar)).
  - destruct pares; [discriminate Hf | discriminate].
Qed.

(** X13.  A line that does not split into exactly two fields on the colon,
    reached before any line with the suffix, makes the check raise
    [ValueError] to its caller, with nothing printed. *)
Theorem vazamento_linha_sem_dois_campos (net : rede) (senha : str) (dados : bytes)
    (sep : str) (pares : list (str * str)) (linha resto : str) (out : list saida) :
  utf8 senha = Some dados ->
  fim_de_linha sep ->
  Forall par_bem_formado pares ->
  find (fun p => str_eqb (fst p) (sufixo_hash dados)) pares = None ->
  sem_quebra linha ->
  length (split 58 linha) <> 2%nat ->
  net (url_range ++ prefixo_hash dados) =
    Responde {| status_code := 200;
                text := junta sep (map linha_de pares ++ [linha]) ++ sep ++ resto |} ->
  verificar_vazamento_pwned unicode_decimal net senha out = (Levanta ValueError, out).
Proof.
  intros Hu Hsep Hp Hf Hq Hl Hnet.
  unfold verificar_vazamento_pwned, consulta, Py.bind, Py.except_RequestException,
    encode_utf8, requests_get.
  rewrite Hu. unfold Py.ret at 1. rewrite Hnet. unfold Py.ret at 1.
  cbn [status_code text]. change (negb (200 =? 200)) with false. cbv iota.
  rewrite splitlines_junta_sep.
  - rewrite <- app_assoc, (percorre_pares_e_resto _ pares _ out Hp), Hf.
    cbn [app percorre].
    destruct (split 58 linha) as [|a [|b [|c d]]]; try reflexivity.
    exfalso. apply Hl. reflexivity.
  - exact Hsep.
  - apply Forall_app. split; [|constructor; [exact Hq | constructor]].
    apply Forall_map. revert Hp. apply Forall_impl.
    intros p Hpar. exact (proj1 (linha_de_bem_formada p Hpar)).
  - destruct (map linha_de pares); discriminate.
Qed.

End MaisPropriedadesDoVazamento.

(** * Properties of the session *)

Lemma filter_todos {A} (f : A -> bool) (l : list A) :
  Forall (fun x => f x = true) l -> filter f l = l.
Proof.
  induction 1 as [|x r Hx _ IH]; [reflexivity|].
  cbn [filter]. rewrite Hx, IH. reflexivity.
Qed.

Lemma variante_de_sair_casos s :
  variante_de_sair s ->
  exists a b c d, s = [a; b; c; d] /\
    (a = 115 \/ a = 83) /\ (b = 97 \/ b = 65) /\ (c = 105 \/ c = 73) /\ (d = 114 \/ d = 82).
Proof.
  unfold variante_de_sair. intros H.
  inversion H as [|a ? ? ? Ha H1]; subst.
  inversion H1 as [|b ? ? ? Hb H2]; subst.
  inversion H2 as [|c ? ? ? Hc H3]; subst.
  inversion H3 as [|d ? ? ? Hd H4]; subst.
  inversion H4; subst.
  exists a, b, c, d. split; [reflexivity|].
  change (Z.of_N (N_of_ascii "s")) with 115 in Ha.
  change (Z.of_N (N_of_ascii "a")) with 97 in Hb.
  change (Z.of_N (N_of_ascii "i")) with 105 in Hc.
  change (Z.of_N (N_of_ascii "r")) with 114 in Hd.
  repeat split; lia.
Qed.

Section PropriedadesDaSessao.

Variable unicode_isalnum : codepoint -> bool.
Variable unicode_decimal : codepoint -> option Z.
Variable unicode_lower : str -> str.
Variable net : rede.

Local Abbreviation Avalia := (avalia unicode_isalnum unicode_decimal net).
Local Abbreviation Passo := (passo unicode_isalnum unicode_decimal unicode_lower net).
Local Abbreviation Laco := (laco unicode_isalnum unicode_decimal unicode_lower net).
Local Abbreviation Main := (main unicode_isalnum unicode_decimal unicode_lower net).
Local Abbreviation Programa := (programa unicode_isalnum unicode_decimal unicode_lower net).

Lemma lower_variante_de_sair s :
  variante_de_sair s -> lower unicode_lower s = str_of "sair".
Proof.
  intros H. destruct (variante_de_sair_casos s H) as (a & b & c & d & -> & Ha & Hb & Hc & Hd).
  destruct Ha as [-> | ->], Hb as [-> | ->], Hc as [-> | ->], Hd as [-> | ->]; reflexivity.
Qed.

Lemma passo_sair s k :
  variante_de_sair s -> Passo s k = ([AteLogo], Regressa).
Proof.
  intros H. unfold passo. rewrite (lower_variante_de_sair s H). reflexivity.
Qed.

(** The masked read that raises: the message, then the read by [input]. *)
Lemma laco_Erro e r :
  Laco (Erro e :: r) =
    prefixa [ErroMascara e]
      match r with
      | Erro e' :: _ => ([], Propaga (DoInput e'))
      | _ => Laco r
      end.
Proof. destruct r as [|[s|e'|] r']; reflexivity. Qed.

(** The lines of the report on one password hold no message of a failed
    masked read. *)
Lemma avalia_sem_erro_mascara s :
  Forall (fun l => nao_erro_mascara l = true) (fst (Avalia s)).
Proof.
  unfold Avalia, verificar_forca_senha, Py.ret.
  set (sug := sugestoes (analisa unicode_isalnum s)).
  assert (Hrel : Forall (fun l => nao_erro_mascara l = true)
            ([ResultadoDaAnalise; ForcaDaSenha (nivel_de (pontuacao (analisa unicode_isalnum s)))]
             ++ match sug with
                | [] => []
                | _ :: _ => SugestoesParaMelhorar :: map Sugestao sug
                end ++ [VerificandoVazamentos])).
  { repeat (apply Forall_app; split); try (repeat constructor).
    destruct sug; [constructor|]. constructor; [reflexivity|].
    apply Forall_map, Forall_forall. reflexivity. }
  assert (Hav : forall avisos, Forall (fun l => nao_erro_mascara l = true) (map Aviso avisos)).
  { intros avisos. apply Forall_map, Forall_forall. reflexivity. }
  destruct (verificar_vazamento_pwned unicode_decimal net s []) as [[[vazou contagem]|e] avisos];
    cbn [fst].
  - apply Forall_app. split; [exact Hrel|].
    apply Forall_app. split; [apply Hav|].
    destruct vazou; repeat constructor.
  - apply Forall_app. split; [exact Hrel | apply Hav].
Qed.

(** One turn of the loop either ends it, whatever would follow, or prints
    its lines and goes on. *)
Lemma passo_casos s :
  (exists linhas d, d <> Aguarda /\
                    Forall (fun l => nao_erro_mascara l = true) linhas /\
                    forall k, Passo s k = (linhas, d)) \/
  (exists linhas, Forall (fun l => nao_erro_mascara l = true) linhas /\
                  forall k, Passo s k = prefixa linhas k).
Proof.
  unfold passo.
  destruct (str_eqb (lower unicode_lower s) (str_of "sair")).
  - left. exists [AteLogo], Regressa.
    split; [discriminate | split; [repeat constructor | reflexivity]].
  - destruct s as [|c r].
    + right. exists [NenhumaSenha]. split; [repeat constructor | reflexivity].
    + pose proof (avalia_sem_erro_mascara (c :: r)) as Hf.
      destruct (Avalia (c :: r)) as [linhas [e|]].
      * left. exists linhas, (Propaga (DoVazamento e)).
        split; [discriminate | split; [exact Hf | reflexivity]].
      * right. exists linhas. split; [exact Hf | reflexivity].
Qed.

Lemma laco_apos_sair pre s r r' :
  variante_de_sair s ->
  Laco (pre ++ Digita s :: r) = Laco (pre ++ Digita s :: r').
Proof.
  intros Hs. induction pre as [|l pre IH].
  - cbn [app laco]. rewrite !(passo_sair s _ Hs). reflexivity.
  - destruct l as [x|e|].
    + cbn [app laco]. rewrite IH. reflexivity.
    + change ((Erro e :: pre) ++ Digita s :: r) with (Erro e :: (pre ++ Digita s :: r)).
      change ((Erro e :: pre) ++ Digita s :: r') with (Erro e :: (pre ++ Digita s :: r')).
      rewrite !laco_Erro, IH.
      destruct pre as [|[x|e'|] pre']; reflexivity.
    + reflexivity.
Qed.

(** X14.  The word "sair", in any mix of upper and lower case, ends the
    session with status 0 and is not evaluated as a password: typed
    first, only the two opening lines and the farewell are printed; typed
    anywhere, nothing after it in the script is read. *)
Theorem sair_encerra_a_sessao (s : str) (pre r r' : list leitura) :
  variante_de_sair s ->
  Programa (Digita s :: r) = ([Titulo; Instrucoes; AteLogo], Sai 0) /\
  Programa (pre ++ Digita s :: r) = Programa (pre ++ Digita s :: r').
Proof.
  intros Hs. split.
  - unfold programa, main. cbn [laco]. rewrite (passo_sair s _ Hs). reflexivity.
  - unfold programa, main. rewrite (laco_apos_sair pre s r r' Hs). reflexivity.
Qed.

(** X15.  Empty inputs are not evaluated: each prints the request to try
    again and the loop reads on. *)
Theorem entradas_vazias_repetem_a_leitura (n : nat) (r : list leitura) :
  Laco (repeat (Digita []) n ++ r) = prefixa (repeat NenhumaSenha n) (Laco r).
Proof.
  induction n as [|n IH].
  - cbn [repeat app]. destruct (Laco r). reflexivity.
  - cbn [repeat app laco]. rewrite IH. reflexivity.
Qed.

Lemma laco_interrompe pre r linhas :
  Laco pre = (linhas, Aguarda) ->
  Laco (pre ++ Interrompe :: r) = (linhas, Propaga KeyboardInterrupt).
Proof.
  revert linhas. induction pre as [|l pre IH]; intros linhas H.
  - cbn [laco] in H. inversion H. reflexivity.
  - destruct l as [x|e|].
    + cbn [app laco] in *.
      destruct (passo_casos x) as [(o & d & Hd & _ & E)|(o & _ & E)].
      * rewrite E in H. inversion H. congruence.
      * rewrite E in *. destruct (Laco pre) as [o' d'] eqn:El.
        unfold prefixa in H. cbn [fst snd] in H. inversion H; subst.
        rewrite (IH o' eq_refl). reflexivity.
    + change ((Erro e :: pre) ++ Interrompe :: r) with (Erro e :: (pre ++ Interrompe :: r)).
      rewrite laco_Erro in *.
      destruct pre as [|[x|e'|] pre'].
      * unfold prefixa in H. cbn [laco fst snd] in H. inversion H. reflexivity.
      * destruct (Laco (Digita x :: pre')) as [o' d'] eqn:El.
        unfold prefixa in H. cbn [fst snd] in H. inversion H; subst.
        pose proof (IH o' eq_refl) as IH'. cbn [app] in IH'.
        cbn [app]. rewrite IH'. reflexivity.
      * unfold prefixa in H. cbn [fst snd] in H. inversion H.
      * cbn [laco] in H. unfold prefixa in H. cbn [fst snd] in H. inversion H.
    + cbn [laco] in H. inversion H.
Qed.

(** X16.  Ctrl-C at a read ends the program with status 0: to the lines
    printed so far it adds the farewell, and nothing more is read. *)
Theorem interrupcao_sai_com_zero (pre r : list leitura) (linhas : list impressao) :
  Main pre = (linhas, Aguarda) ->
  Programa (pre ++ Interrompe :: r) = (linhas ++ [Interrompida], Sai 0).
Proof.
  unfold programa, main. intros H.
  destruct (Laco pre) as [o d] eqn:El.
  unfold prefixa in H. cbn [fst snd] in H. inversion H; subst.
  rewrite (laco_interrompe pre r o El). reflexivity.
Qed.

(** X17.  When masking is not available, so that every masked read raises
    and the text is typed at [input], the session is the one of the same
    texts typed at a masked read, but for the message of the failed
    masked read printed before each. *)
Theorem sem_mascara_a_sessao_e_a_mesma (e : str) (ss : list str) :
  filter nao_erro_mascara (fst (Laco (sem_mascara e ss))) = fst (Laco (map Digita ss)) /\
  snd (Laco (sem_mascara e ss)) = snd (Laco (map Digita ss)).
Proof.
  induction ss as [|s ss [IH1 IH2]]; [split; reflexivity|].
  change (sem_mascara e (s :: ss)) with (Erro e :: Digita s :: sem_mascara e ss).
  rewrite laco_Erro. cbn [map laco].
  destruct (passo_casos s) as [(o & d & Hd & Ho & E)|(o & Ho & E)]; rewrite !E.
  - unfold prefixa. cbn [fst snd app filter]. rewrite (filter_todos _ _ Ho).
    split; reflexivity.
  - unfold prefixa. cbn [fst snd app filter].
    rewrite filter_app, (filter_todos _ _ Ho), IH1, IH2. split; reflexivity.
Qed.

(** On a well-behaved answer the breach check returns. *)
Lemma vazamento_bem_comportado (senha : str) (out : list saida) :
  codificavel senha -> rede_bem_comportada net ->
  exists v out', verificar_vazamento_pwned unicode_decimal net senha out = (Retorna v, out').
Proof.
  intros Hc Hnet. destruct (utf8_codificavel senha Hc) as [dados Hu].
  specialize (Hnet (url_range ++ prefixo_hash dados)).
  unfold verificar_vazamento_pwned, consulta, Py.bind, Py.except_RequestException,
    encode_utf8, requests_get, Py.ret, Py.raise, Py.print.
  rewrite Hu. cbv beta iota.
  destruct (net (url_range ++ prefixo_hash dados)) as [resp|e];
    [|eexists; eexists; reflexivity].
  cbv beta iota.
  destruct (Z.eqb_spec (status_code resp) 200) as [E200|N200];
    [|eexists; eexists; reflexivity].
  cbn [negb]. cbv iota.
  destruct Hnet as [Hs|(sep & pares & Hsep & Hp & Ht)]; [contradiction|].
  rewrite Ht. unfold corpo_de. rewrite splitlines_junta.
  - rewrite (percorre_pares unicode_decimal _ pares out Hp).
    destruct (find _ pares); eexists; eexists; reflexivity.
  - exact Hsep.
  - apply Forall_map. revert Hp. apply Forall_impl. exact linha_de_bem_formada.
Qed.

Lemma avalia_bem_comportada (s : str) :
  codificavel s -> rede_bem_comportada net -> snd (Avalia s) = None.
Proof.
  intros Hc Hnet. unfold avalia, verificar_forca_senha, Py.ret.
  destruct (vazamento_bem_comportado s [] Hc Hnet) as ([vazou contagem] & avisos & E).
  rewrite E. reflexivity.
Qed.

Lemma passo_bem_comportado (s : str) (k : list impressao * desfecho) :
  codificavel s -> rede_bem_comportada net ->
  (forall e, snd k <> Propaga (DoVazamento e)) ->
  forall e, snd (Passo s k) <> Propaga (DoVazamento e).
Proof.
  intros Hc Hnet Hk e. unfold passo.
  destruct (str_eqb (lower unicode_lower s) (str_of "sair")); [discriminate|].
  destruct s as [|c r]; [apply Hk|].
  pose proof (avalia_bem_comportada (c :: r) Hc Hnet) as Ha.
  destruct (Avalia (c :: r)) as [linhas [x|]]; [discriminate Ha | apply Hk].
Qed.

Lemma laco_bem_comportado (entradas : list leitura) :
  rede_bem_comportada net -> Forall leitura_codificavel entradas ->
  forall e, snd (Laco entradas) <> Propaga (DoVazamento e).
Proof.
  intros Hnet. induction 1 as [|l r Hl Hr IH]; intros x; [discriminate|].
  destruct l as [s|e|].
  - cbn [laco]. apply passo_bem_comportado; assumption.
  - rewrite laco_Erro. unfold prefixa. cbn [snd].
    destruct r as [|[s|e'|] r']; [discriminate | apply IH | discriminate | discriminate].
  - discriminate.
Qed.

(** X18.  The session does not stop on a breach check that degrades: when
    every text typed is Unicode text and the network answers each request
    with a failure of transport, a status other than 200, or 200 and
    well-formed lines, no exception of the breach check ends the
    program. *)
Theorem sessao_com_rede_bem_comportada (entradas : list leitura) (e : excecao) :
  rede_bem_comportada net -> Forall leitura_codificavel entradas ->
  snd (Programa entradas) <> NaoTratada (DoVazamento e).
Proof.
  intros Hnet Hs. pose proof (laco_bem_comportado entradas Hnet Hs) as H.
  unfold programa, main, prefixa. cbn [fst snd].
  destruct (Laco entradas) as [linhas d]. cbn [fst snd] in *.
  destruct d as [|[|x|x]|]; try discriminate.
  exfalso. exact (H x eq_refl).
Qed.


End PropriedadesDaSessao.

(** * The further properties at concrete inputs *)

Lemma ordem_dos_caracteres_nao_importa_witness :
  analisa (fun _ => false) (str_of "Senha-1") =
    analisa (fun _ => false) (rev (str_of "Senha-1")) /\
  verificar_forca_senha (fun _ => false) (str_of "Senha-1") [] =
    verificar_forca_senha (fun _ => false) (rev (str_of "Senha-1")) [].
Proof.
  apply (ordem_dos_caracteres_nao_importa (fun _ => false)
           (str_of "Senha-1") (rev (str_of "Senha-1")) []).
  apply Permutation_rev.
Defined.

Lemma vazamento_status_diferente_de_200_witness :
  verificar_vazamento_pwned (fun _ => None)
    (fun _ => Responde {| status_code := 503; text := [] |})
    (str_of "password") [] = (Retorna (false, 0), [AvisoStatus 503]).
Proof.
  apply (vazamento_status_diferente_de_200 (fun _ => None)
           (fun _ => Responde {| status_code := 503; text := [] |})
           (str_of "password") (str_of "password")
           {| status_code := 503; text := [] |} []).
  - reflexivity.
  - reflexivity.
  - discriminate.
Defined.

Lemma vazamento_falha_de_transporte_witness :
  verificar_vazamento_pwned (fun _ => None) (fun _ => Falha (str_of "timed out"))
    (str_of "password") [] = (Retorna (false, 0), [AvisoConexao (str_of "timed out")]).
Proof.
  apply (vazamento_falha_de_transporte (fun _ => None) (fun _ => Falha (str_of "timed out"))
           (str_of "password") (str_of "password") (str_of "timed out") []).
  - reflexivity.
  - reflexivity.
Defined.

Lemma vazamento_so_consulta_o_prefixo_witness :
  verificar_vazamento_pwned (fun _ => None)
    (fun _ => Responde {| status_code := 200;
                          text := str_of "1E4C9B93F3F0682250B6CF8331B7EE68FD8:7" |})
    (str_of "password") [] =
  verificar_vazamento_pwned (fun _ => None)
    (fun url =>
       if str_eqb url (url_range ++ str_of "5BAA6")
       then Responde {| status_code := 200;
                        text := str_of "1E4C9B93F3F0682250B6CF8331B7EE68FD8:7" |}
       else Falha (str_of "unreachable"))
    (str_of "password") [].
Proof.
  apply (vazamento_so_consulta_o_prefixo (fun _ => None) _ _
           (str_of "password") (str_of "password") []).
  - reflexivity.
  - vm_compute. reflexivity.
Defined.

Lemma vazamento_nunca_propaga_RequestException_witness :
  (ValueError = ValueError \/ ValueError = UnicodeEncodeError) /\ @nil saida = [].
Proof.
  apply (vazamento_nunca_propaga_RequestException (fun _ => None)
           (fun _ => Responde {| status_code := 200; text := str_of "<html>" |})
           (str_of "password") [] ValueError []).
  vm_compute. reflexivity.
Defined.

Lemma vazamento_para_na_primeira_ocorrencia_witness :
  verificar_vazamento_pwned (fun _ => None)
    (fun _ => Responde {| status_code := 200;
       text := corpo_de [10]
                 [(str_of "1D72CD07550416C216D8AD296BF5C0AE8E0", str_of "10");
                  (str_of "1E4C9B93F3F0682250B6CF8331B7EE68FD8", str_of "3730471")]
               ++ [10] ++ str_of "<html>:::</html>" |})
    (str_of "password") [] = (Retorna (true, 3730471), []).
Proof.
  refine (eq_trans
    (vazamento_para_na_primeira_ocorrencia (fun _ => None) _ (str_of "password")
       (str_of "password") [10]
       [(str_of "1D72CD07550416C216D8AD296BF5C0AE8E0", str_of "10");
        (str_of "1E4C9B93F3F0682250B6CF8331B7EE68FD8", str_of "3730471")]
       (str_of "1E4C9B93F3F0682250B6CF8331B7EE68FD8", str_of "3730471")
       (str_of "<html>:::</html>") [] _ _ _ _ _) _).
  - reflexivity.
  - left; reflexivity.
  - repeat (apply Forall_cons; [bem_formado|]). apply Forall_nil.
  - vm_compute. reflexivity.
  - reflexivity.
  - vm_compute. reflexivity.
Defined.

Lemma vazamento_linha_sem_dois_campos_witness :
  verificar_vazamento_pwned (fun _ => None)
    (fun _ => Responde {| status_code := 200;
       text := junta [13; 10]
                 (map linha_de [(str_of "1D72CD07550416C216D8AD296BF5C0AE8E0", str_of "10")]
                  ++ [str_of "1E4C9B93F3F0682250B6CF8331B7EE68FD8:37:30471"])
               ++ [13; 10] ++ [] |})
    (str_of "password") [] = (Levanta ValueError, []).
Proof.
  apply (vazamento_linha_sem_dois_campos (fun _ => None) _ (str_of "password")
           (str_of "password") [13; 10]
           [(str_of "1D72CD07550416C216D8AD296BF5C0AE8E0", str_of "10")]
           (str_of "1E4C9B93F3F0682250B6CF8331B7EE68FD8:37:30471") [] []).
  - reflexivity.
  - right; reflexivity.
  - repeat (apply Forall_cons; [bem_formado|]). apply Forall_nil.
  - vm_compute. reflexivity.
  - unfold sem_quebra. lazy. repeat (apply Forall_cons; [reflexivity|]). apply Forall_nil.
  - vm_compute. discriminate.
  - reflexivity.
Defined.

Lemma sair_encerra_a_sessao_witness :
  programa (fun _ => false) (fun _ => None) (fun s => s) (fun _ => Falha [])
    (Digita (str_of "SaIr") :: [Digita (str_of "password")])
  = ([Titulo; Instrucoes; AteLogo], Sai 0) /\
  programa (fun _ => false) (fun _ => None) (fun s => s) (fun _ => Falha [])
    ([Digita []] ++ Digita (str_of "SaIr") :: [Digita (str_of "password")])
  = programa (fun _ => false) (fun _ => None) (fun s => s) (fun _ => Falha [])
    ([Digita []] ++ Digita (str_of "SaIr") :: []).
Proof.
  apply (sair_encerra_a_sessao (fun _ => false) (fun _ => None) (fun s => s)
           (fun _ => Falha []) (str_of "SaIr") [Digita []] [Digita (str_of "password")] []).
  unfold variante_de_sair.
  repeat (apply Forall2_cons; [first [left; reflexivity | right; reflexivity]|]).
  apply Forall2_nil.
Defined.

Lemma interrupcao_sai_com_zero_witness :
  programa (fun _ => false) (fun _ => None) (fun s => s) (fun _ => Falha [])
    ([Digita []; Erro (str_of "no tty")] ++ Interrompe :: [Digita (str_of "password")])
  = ([Titulo; Instrucoes; NenhumaSenha; ErroMascara (str_of "no tty")] ++ [Interrompida],
     Sai 0).
Proof.
  apply (interrupcao_sai_com_zero (fun _ => false) (fun _ => None) (fun s => s)
           (fun _ => Falha []) [Digita []; Erro (str_of "no tty")]
           [Digita (str_of "password")]).
  reflexivity.
Defined.

Lemma sessao_com_rede_bem_comportada_witness :
  snd (programa (fun _ => false) (fun _ => None) (fun s => s)
         (fun _ => Responde {| status_code := 429; text := [] |})
         [Digita (str_of "password"); Digita (str_of "sair")])
  <> NaoTratada (DoVazamento ValueError).
Proof.
  apply (sessao_com_rede_bem_comportada (fun _ => false) (fun _ => None) (fun s => s)
           (fun _ => Responde {| status_code := 429; text := [] |})
           [Digita (str_of "password"); Digita (str_of "sair")] ValueError).
  - intros url. left. discriminate.
  - repeat (apply Forall_cons;
            [unfold leitura_codificavel, codificavel, escalar;
             repeat (apply Forall_cons; [simpl; lia|]); apply Forall_nil|]).
    apply Forall_nil.
Defined.


Lemma ascii_de_oito_nao_e_muito_fraca_witness :
  2 <= pontuacao (analisa (fun _ => false) (str_of "password")) /\
  nivel_de (pontuacao (analisa (fun _ => false) (str_of "password"))) <> MuitoFraca.
Proof.
  apply (ascii_de_oito_nao_e_muito_fraca (fun _ => false) (str_of "password")).
  - simpl; lia.
  - repeat (apply Forall_cons; [simpl; lia|]). apply Forall_nil.
Defined.
